(** * Daily quiz selection: seeded shuffle and daily-set builder (server.js)

    A shallow embedding of the three pure functions of [server.js]:
    [seededShuffle], [groupByDifficulty] and [buildDailySet], together with
    the properties the specification states about them.

    Modelling decisions.
    - JavaScript arrays are lists; [arr[i]] is list lookup and the
      destructuring swap is two in-place updates.
    - The object built by [groupByDifficulty] is used as a dictionary from
      difficulty tag to array.  Its own properties are a finite map keyed
      by strings, and [groupByDifficulty], [pickFromGroup] and
      [buildDailySet] are first given on that map alone.  A plain object
      also answers to the names it inherits from [Object.prototype]; the
      section on plain objects gives the same three functions with these
      names in view, where a tag such as ["constructor"] makes the code
      throw a [TypeError], and shows that the two agree on every pool
      without such a tag.
    - [seedrandom] is an external package.  It is a parameter of the
      development: a generator state type, the construction of a state from
      a seed string, and one step [rng()] that returns a number and the next
      state.  Its documented contract, a result in the interval [0,1), is
      the only assumption.  The numbers are rationals (every double is one)
      and the product in [Math.floor(rng() * (i + 1))] is taken exactly:
      rounding it to a double can change which index of [0, i] is drawn,
      not that the index lies in [0, i], and the properties below use the
      index only through this range.
    - Question ids are primitive values compared with [===]. *)

From Stdlib Require Import QArith Qround.
From stdpp Require Import gmap strings list fin_maps pretty.

Local Open Scope string_scope.
Local Open Scope nat_scope.
Local Open Scope list_scope.

(** ** Data model *)

(** A primitive id: a number or a string.  The strict equality [===] never
    identifies a number with a string. *)
Inductive Ident : Type :=
  | IdNum (n : Z)
  | IdStr (s : string).

#[global] Instance Ident_eq_dec : EqDecision Ident.
Proof. solve_decision. Defined.

(** [r.id === q.id] *)
Definition strict_eq (a b : Ident) : bool := bool_decide (a = b).

(** The four answer options, labels A to D. *)
Record Options : Type := mkOptions {
  optA : string;
  optB : string;
  optC : string;
  optD : string
}.

(** [{ id, text, options: {A..D}, correct, difficulty }] *)
Record Question : Type := mkQuestion {
  id : Ident;
  text : string;
  options : Options;
  correct : string;
  difficulty : string
}.

(** ** Array primitives *)

(** [Math.floor(u * (i + 1))] for a number [u] and an index [i]. *)
Definition floor_scaled (u : Q) (i : nat) : nat :=
  Z.to_nat (Qfloor (Qmult u (inject_Z (Z.of_nat (i + 1))))).

(** [[arr[i], arr[j]] = [arr[j], arr[i]]]: the right-hand side is read
    first, then [arr[i]] and [arr[j]] are written in this order.  Both
    indices are inside the array whenever the generator honours its
    contract (lemma [floor_scaled_bound]); outside it the array is left
    as it is. *)
Definition swap {A : Type} (arr : list A) (i j : nat) : list A :=
  match arr !! i, arr !! j with
  | Some ai, Some aj => <[j := ai]> (<[i := aj]> arr)
  | _, _ => arr
  end.

(** [a.slice(0, n)] *)
Definition slice0 {A : Type} (a : list A) (n : nat) : list A := take n a.

(** ** The seeded generator and the shuffle *)

Section Shuffle.

(** State of a generator returned by [seedrandom(seed)]. *)
Context {Gen : Type}.
(** [seedrandom(seed)]: a fresh generator, determined by the seed. *)
Variable seedrandom : string -> Gen.
(** [rng()]: the number drawn and the state after the call. *)
Variable rng_call : Gen -> Q * Gen.

(** Contract of the package: every draw lies in [0,1). *)
Definition rng_in_unit_interval : Prop :=
  forall g : Gen, (0 <= fst (rng_call g))%Q /\ (fst (rng_call g) < 1)%Q.

(** The loop [for (let i = arr.length - 1; i > 0; i--)], from index [i]
    with generator state [rng] and array [arr]. *)
Fixpoint shuffle_loop {A : Type} (i : nat) (rng : Gen) (arr : list A)
  : list A * Gen :=
  match i with
  | O => (arr, rng)
  | S i' =>
      let (u, rng') := rng_call rng in
      let j := floor_scaled u i in
      shuffle_loop i' rng' (swap arr i j)
  end.

(** [seededShuffle(array, seed)] *)
Definition seededShuffle {A : Type} (array : list A) (seed : string)
  : list A :=
  let rng := seedrandom seed in
  let arr := array in
  fst (shuffle_loop (length arr - 1) rng arr).

(** ** Grouping and the daily set *)

(** [groupByDifficulty(pool)]: a left-to-right [reduce] from the empty
    object.  [if (!acc[d]) acc[d] = []] creates the group on first sight
    of a tag (an array, even an empty one, is truthy); [acc[d].push(q)]
    appends to it. *)
Definition groupByDifficulty (pool : list Question)
  : gmap string (list Question) :=
  fold_left
    (fun acc q =>
       let acc :=
         match acc !! difficulty q with
         | None => <[difficulty q := []]> acc
         | Some _ => acc
         end in
       alter (fun group => group ++ [q]) (difficulty q) acc)
    pool ∅.

(** [const counts = { Easy: 4, Medium: 5, Hard: 21 }] *)
Record Counts : Type := mkCounts { Easy : nat; Medium : nat; Hard : nat }.
Definition counts : Counts := {| Easy := 4; Medium := 5; Hard := 21 |}.

(** The closure [pickFromGroup(groupName, n, seed)], with the [grouped]
    object it captures made a parameter. *)
Definition pickFromGroup (grouped : gmap string (list Question))
    (groupName : string) (n : nat) (seed : string) : list Question :=
  let arr :=
    match grouped !! groupName with
    | Some group => group
    | None => []
    end in
  let shuffled := seededShuffle arr (seed +:+ "-" +:+ groupName) in
  slice0 shuffled n.

(** Lines 62 to 82: the three [result.push(...)] calls, in order. *)
Definition pullBlocks (pool : list Question) (daySeed : string)
  : list Question :=
  let grouped := groupByDifficulty pool in
  let result := [] in
  let result := result ++ pickFromGroup grouped "Easy" (Easy counts) daySeed in
  let result := result ++ pickFromGroup grouped "Medium" (Medium counts) daySeed in
  let result := result ++ pickFromGroup grouped "Hard" (Hard counts) daySeed in
  result.

(** [pool.filter(q => !result.some(r => r.id === q.id))] *)
Definition remainingPool (pool result : list Question) : list Question :=
  List.filter
    (fun q => negb (existsb (fun r => strict_eq (id r) (id q)) result))
    pool.

(** Lines 85 to 93: fill a short result from the rest of the pool, trim
    a long one. *)
Definition fillOrTrim (pool : list Question) (daySeed : string)
    (result : list Question) : list Question :=
  if length result <? 30 then
    let needed := 30 - length result in
    let filler :=
      slice0 (seededShuffle (remainingPool pool result) (daySeed +:+ "-filler"))
             needed in
    result ++ filler
  else if 30 <? length result then
    take 30 result
  else
    result.

(** [buildDailySet(pool, dateSeed)]; [String(dateSeed)] is the identity
    on a string. *)
Definition buildDailySet (pool : list Question) (dateSeed : string)
  : list Question :=
  let daySeed := dateSeed in
  fillOrTrim pool daySeed (pullBlocks pool daySeed).

End Shuffle.

(** ** The grouped object as a plain object

    [groupByDifficulty] reduces into [{}], a plain object, which inherits
    the properties of [Object.prototype].  Reading [acc[name]] gives the
    own property if there is one and the inherited one otherwise; every
    inherited value is truthy and has neither a [push] nor a [slice]. *)

(** The property names of [Object.prototype]. *)
Definition Object_prototype_names : list string :=
  ["constructor"; "__defineGetter__"; "__defineSetter__"; "hasOwnProperty";
   "__lookupGetter__"; "__lookupSetter__"; "isPrototypeOf";
   "propertyIsEnumerable"; "toString"; "valueOf"; "__proto__";
   "toLocaleString"].

Definition inherited (name : string) : bool :=
  existsb (String.eqb name) Object_prototype_names.

(** No question of the pool is tagged with an inherited name. *)
Definition own_tags (pool : list Question) : Prop :=
  Forall (fun q => inherited (difficulty q) = false) pool.

#[global] Instance own_tags_dec (pool : list Question) : Decision (own_tags pool).
Proof. unfold own_tags. apply _. Defined.

(** What [grouped[name]] evaluates to. *)
Inductive Property : Type :=
  | Undefined
  | InheritedValue
  | GroupArray (group : list Question).

Definition get (own : gmap string (list Question)) (name : string)
  : Property :=
  match own !! name with
  | Some group => GroupArray group
  | None => if inherited name then InheritedValue else Undefined
  end.

Inductive JsError : Type := TypeError.

(** A call returns a value or throws. *)
Inductive Outcome (A : Type) : Type :=
  | Returns (value : A)
  | Throws (error : JsError).
Arguments Returns {A} value.
Arguments Throws {A} error.

(** The callback of the [reduce] (lines 37 to 39).  [acc[d] = []] runs
    when [acc[d]] is falsy, that is undefined; [acc[d].push(q)] appends to
    an array and is a [TypeError] on an inherited value, which has no
    [push]. *)
Definition group_step (acc : gmap string (list Question)) (q : Question)
  : Outcome (gmap string (list Question)) :=
  let acc :=
    match get acc (difficulty q) with
    | Undefined => <[difficulty q := []]> acc
    | InheritedValue | GroupArray _ => acc
    end in
  match get acc (difficulty q) with
  | GroupArray _ =>
      Returns (alter (fun group => group ++ [q]) (difficulty q) acc)
  | InheritedValue | Undefined => Throws TypeError
  end.

(** [pool.reduce(callback, acc)]: left to right, ended by the first
    throw. *)
Fixpoint reduce_groups (pool : list Question)
    (acc : gmap string (list Question))
  : Outcome (gmap string (list Question)) :=
  match pool with
  | [] => Returns acc
  | q :: rest =>
      match group_step acc q with
      | Returns acc' => reduce_groups rest acc'
      | Throws error => Throws error
      end
  end.

(** [groupByDifficulty(pool)] on a plain object. *)
Definition groupByDifficulty_obj (pool : list Question)
  : Outcome (gmap string (list Question)) :=
  reduce_groups pool ∅.

Section PlainObject.

Context {Gen : Type}.
Variable seedrandom : string -> Gen.
Variable rng_call : Gen -> Q * Gen.

(** [pickFromGroup(groupName, n, seed)] on a plain object:
    [grouped[groupName] ? grouped[groupName].slice() : []] copies an
    array, takes the empty array for undefined, and is a [TypeError] on
    an inherited value, which is truthy and has no [slice]. *)
Definition pickFromGroup_obj (grouped : gmap string (list Question))
    (groupName : string) (n : nat) (seed : string)
  : Outcome (list Question) :=
  match get grouped groupName with
  | GroupArray group =>
      let arr := group in
      let shuffled :=
        seededShuffle seedrandom rng_call arr (seed +:+ "-" +:+ groupName) in
      Returns (slice0 shuffled n)
  | Undefined =>
      let arr := [] in
      let shuffled :=
        seededShuffle seedrandom rng_call arr (seed +:+ "-" +:+ groupName) in
      Returns (slice0 shuffled n)
  | InheritedValue => Throws TypeError
  end.

(** [buildDailySet(pool, dateSeed)] on a plain object: the first throw
    ends the call. *)
Definition buildDailySet_obj (pool : list Question) (dateSeed : string)
  : Outcome (list Question) :=
  match groupByDifficulty_obj pool with
  | Throws error => Throws error
  | Returns grouped =>
  let result := [] in
  let daySeed := dateSeed in
  match pickFromGroup_obj grouped "Easy" (Easy counts) daySeed with
  | Throws error => Throws error
  | Returns block =>
  let result := result ++ block in
  match pickFromGroup_obj grouped "Medium" (Medium counts) daySeed with
  | Throws error => Throws error
  | Returns block =>
  let result := result ++ block in
  match pickFromGroup_obj grouped "Hard" (Hard counts) daySeed with
  | Throws error => Throws error
  | Returns block =>
  let result := result ++ block in
  Returns (fillOrTrim seedrandom rng_call pool daySeed result)
  end end end end.

End PlainObject.

(** ** The same code with the generator objects of the process in view

    [seedrandom(seed)] allocates a generator object and [rng()] mutates
    it.  To speak about calls that follow one another in one process, the
    generator objects allocated so far are kept in a store (a list, a
    reference being a position in it) that every call receives and hands
    on.  A call through a reference that was never allocated has no
    result. *)

Section Store.

Context {Gen : Type}.
Variable seedrandom : string -> Gen.
Variable rng_call : Gen -> Q * Gen.

(** [const rng = seedrandom(seed)]: a new object at the end of the store. *)
Definition new_rng (store : list Gen) (seed : string) : nat * list Gen :=
  (length store, store ++ [seedrandom seed]).

(** [rng()] through the reference [rng]. *)
Definition call_rng (store : list Gen) (rng : nat) : option (Q * list Gen) :=
  match store !! rng with
  | Some g => let (u, g') := rng_call g in Some (u, <[rng := g']> store)
  | None => None
  end.

Fixpoint shuffle_loop_in {A : Type} (i : nat) (rng : nat) (arr : list A)
    (store : list Gen) : option (list A * list Gen) :=
  match i with
  | O => Some (arr, store)
  | S i' =>
      match call_rng store rng with
      | Some (u, store') =>
          let j := floor_scaled u i in
          shuffle_loop_in i' rng (swap arr i j) store'
      | None => None
      end
  end.

Definition seededShuffle_in {A : Type} (array : list A) (seed : string)
    (store : list Gen) : option (list A * list Gen) :=
  let (rng, store) := new_rng store seed in
  let arr := array in
  shuffle_loop_in (length arr - 1) rng arr store.

Definition pickFromGroup_in (grouped : gmap string (list Question))
    (groupName : string) (n : nat) (seed : string) (store : list Gen)
  : option (list Question * list Gen) :=
  let arr :=
    match grouped !! groupName with
    | Some group => group
    | None => []
    end in
  match seededShuffle_in arr (seed +:+ "-" +:+ groupName) store with
  | Some (shuffled, store) => Some (slice0 shuffled n, store)
  | None => None
  end.

Definition pullBlocks_in (pool : list Question) (daySeed : string)
    (store : list Gen) : option (list Question * list Gen) :=
  let grouped := groupByDifficulty pool in
  let result := [] in
  match pickFromGroup_in grouped "Easy" (Easy counts) daySeed store with
  | None => None
  | Some (block, store) =>
  let result := result ++ block in
  match pickFromGroup_in grouped "Medium" (Medium counts) daySeed store with
  | None => None
  | Some (block, store) =>
  let result := result ++ block in
  match pickFromGroup_in grouped "Hard" (Hard counts) daySeed store with
  | None => None
  | Some (block, store) =>
  let result := result ++ block in
  Some (result, store)
  end end end.

Definition fillOrTrim_in (pool : list Question) (daySeed : string)
    (result : list Question) (store : list Gen)
  : option (list Question * list Gen) :=
  if length result <? 30 then
    let needed := 30 - length result in
    match seededShuffle_in (remainingPool pool result)
            (daySeed +:+ "-filler") store with
    | Some (shuffled, store) =>
        let filler := slice0 shuffled needed in
        Some (result ++ filler, store)
    | None => None
    end
  else if 30 <? length result then
    Some (take 30 result, store)
  else
    Some (result, store).

Definition buildDailySet_in (pool : list Question) (dateSeed : string)
    (store : list Gen) : option (list Question * list Gen) :=
  let daySeed := dateSeed in
  match pullBlocks_in pool daySeed store with
  | Some (result, store) => fillOrTrim_in pool daySeed result store
  | None => None
  end.

End Store.

(** ** A small generator for worked examples

    A linear congruential generator on 31 bits, seeded with a checksum of
    the seed string; a draw is the low three decimal digits of the state
    over one thousand. *)

Module Fixture.

Fixpoint checksum (h : N) (seed : string) : N :=
  match seed with
  | EmptyString => h
  | String c rest =>
      checksum ((h * 31 + Ascii.N_of_ascii c) mod 2147483648)%N rest
  end.

Definition toy_seedrandom (seed : string) : N := checksum 7%N seed.

Definition toy_rng (g : N) : Q * N :=
  (Z.of_N (g mod 1000) # 1000,
   ((g * 1103515245 + 12345) mod 2147483648)%N).

(** A question of a given number and tag, the other fields fixed. *)
Definition question (n : nat) (tag : string) : Question :=
  {| id := IdNum (Z.of_nat n);
     text := "";
     options := {| optA := ""; optB := ""; optC := ""; optD := "" |};
     correct := "A";
     difficulty := tag |}.

(** Questions numbered [from], [from + 1], ..., all with one tag. *)
Definition questions (from count : nat) (tag : string) : list Question :=
  map (fun n => question n tag) (seq from count).

(** 6 Easy, 7 Medium, 25 Hard and 2 Expert questions. *)
Definition ample_pool : list Question :=
  questions 0 6 "Easy" ++ questions 100 7 "Medium"
    ++ questions 200 25 "Hard" ++ questions 300 2 "Expert".

(** 2 Easy, 5 Medium and 30 Hard questions. *)
Definition short_easy_pool : list Question :=
  questions 0 2 "Easy" ++ questions 100 5 "Medium" ++ questions 200 30 "Hard".

(** 2 Easy, 1 Medium, 3 Hard and 1 Expert question. *)
Definition small_pool : list Question :=
  questions 0 2 "Easy" ++ questions 100 1 "Medium"
    ++ questions 200 3 "Hard" ++ questions 300 1 "Expert".

(** The questions of [ample_pool] in another order of the tags. *)
Definition regrouped_pool : list Question :=
  questions 300 2 "Expert" ++ questions 200 25 "Hard"
    ++ questions 0 6 "Easy" ++ questions 100 7 "Medium".

(** An Easy question and one tagged with an inherited name. *)
Definition proto_pool : list Question :=
  [question 1 "Easy"; question 2 "__proto__"].

(** No Easy question, a Hard one and one tagged with an inherited name. *)
Definition constructor_pool : list Question :=
  [question 1 "Hard"; question 2 "constructor"].

(** [ample_pool] with a question tagged with an inherited name. *)
Definition toString_pool : list Question :=
  ample_pool ++ [question 999 "toString"].

(** An edit of the content of a question: id and tag stay. *)
Definition edited (q : Question) : Question :=
  {| id := id q;
     text := "edited";
     options := options q;
     correct := "B";
     difficulty := difficulty q |}.

End Fixture.

(** ** Vocabulary of the specification *)

(** The questions of a pool that carry a given difficulty tag, in pool
    order. *)
Definition group_of (tag : string) (pool : list Question) : list Question :=
  List.filter (fun q => bool_decide (difficulty q = tag)) pool.

(** The ids of a list of questions, in order. *)
Definition ids (qs : list Question) : list Ident := map id qs.

(** "Pool minus all ids already selected", in the words of the
    specification. *)
Definition pool_minus_selected (pool selected : list Question)
  : list Question :=
  List.filter (fun q => bool_decide (id q ∉ ids selected)) pool.

(** ** The quiz endpoint

    The handler of [GET /api/quiz] (lines 104 to 135).  What it reads from
    outside is made a parameter: the pool exported by [questions.js], the
    [userId] of the query string (absent, or a string), the text of
    [new Date().toISOString().slice(0, 10)] and the number returned by
    [new Date().getDate()].  Its result is the response it sends. *)

(** [res.json(payload)], or [res.status(500).json({ message })]. *)
Inductive Response : Type :=
  | Json (payload : list Question)
  | Status500 (message : string).

(** The object literal of the [map] callback: the five fields, copied. *)
Definition toPayload (q : Question) : Question :=
  {| id := id q;
     text := text q;
     options := options q;
     correct := correct q;
     difficulty := difficulty q |}.

(** [req.query.userId || 'anonymous']: an absent value and the empty
    string are both falsy. *)
Definition userIdOrAnonymous (query_userId : option string) : string :=
  match query_userId with
  | None => "anonymous"
  | Some "" => "anonymous"
  | Some userId => userId
  end.

(** The decimal text of a number inside a template literal. *)
Definition decimal (n : nat) : string := pretty n.

Section Handler.

Context {Gen : Type}.
Variable seedrandom : string -> Gen.
Variable rng_call : Gen -> Q * Gen.

(** The [try] block up to a throw, and the [catch] block after one. *)
Definition quizHandler (questionsPool : list Question)
    (query_userId : option string) (today : string) (getDate : nat)
  : Response :=
  let userId := userIdOrAnonymous query_userId in
  let dayOfMonthMod3 := getDate mod 3 in
  let dateSeed := today +:+ "-" +:+ decimal dayOfMonthMod3 in
  match buildDailySet_obj seedrandom rng_call questionsPool dateSeed with
  | Returns dailySet =>
      let userSeed := userId +:+ "-" +:+ today in
      let shuffled := seededShuffle seedrandom rng_call dailySet userSeed in
      let payload := map toPayload shuffled in
      Json payload
  | Throws err =>
      Status500 "Failed to build quiz. Try again later."
  end.

End Handler.

(** ** Properties of the array primitives *)

Lemma floor_scaled_bound (u : Q) (i : nat) :
  (0 <= u)%Q -> (u < 1)%Q -> floor_scaled u i <= i.
Proof.
  destruct u as [a b]. unfold Qle, Qlt, floor_scaled.
  cbn [Qnum Qden Qmult Qfloor inject_Z].
  intros Ha Hb. rewrite Pos.mul_1_r.
  assert (Ha' : (0 <= a)%Z) by lia.
  assert (Hb' : (a < Z.pos b)%Z) by lia.
  clear Ha Hb.
  set (n := Z.of_nat (i + 1)).
  assert (Hn : (0 < n)%Z) by (unfold n; lia).
  assert (Hlt : ((a * n) `div` Z.pos b < n)%Z).
  { apply Z.div_lt_upper_bound; [lia | nia]. }
  assert (Hge : (0 <= (a * n) `div` Z.pos b)%Z).
  { apply Z.div_pos; [apply Z.mul_nonneg_nonneg|]; lia. }
  revert Hlt Hge. generalize ((a * n) `div` Z.pos b)%Z. subst n.
  intros q Hlt Hge. lia.
Qed.

Lemma swap_length {A : Type} (arr : list A) (i j : nat) :
  length (swap arr i j) = length arr.
Proof.
  unfold swap. destruct (arr !! i), (arr !! j); trivial.
  by rewrite !length_insert.
Qed.

(** Overwriting one cell and putting the old content in front is a
    rearrangement. *)
Lemma insert_cons_perm {A : Type} (l : list A) (k : nat) (x y : A) :
  l !! k = Some y -> y :: <[k := x]> l ≡ₚ x :: l.
Proof.
  revert k. induction l as [|z l IH]; intros [|k] Hk; simplify_eq/=.
  - apply perm_swap.
  - rewrite (perm_swap z y), (IH k Hk). apply perm_swap.
Qed.

Lemma swap_perm {A : Type} (arr : list A) (i j : nat) :
  i < length arr -> j < length arr -> swap arr i j ≡ₚ arr.
Proof.
  unfold swap. intros Hi Hj.
  destruct (lookup_lt_is_Some_2 arr i Hi) as [ai Hai].
  destruct (lookup_lt_is_Some_2 arr j Hj) as [aj Haj].
  rewrite Hai, Haj. clear Hi Hj.
  revert i j Hai Haj. induction arr as [|z arr IH]; intros [|i] [|j] Hai Haj;
    simplify_eq/=; trivial.
  - by apply insert_cons_perm.
  - by apply insert_cons_perm.
  - by rewrite IH.
Qed.

(** ** Properties of the shuffle *)

Section ShuffleFacts.

Context {Gen : Type}.
Variable seedrandom : string -> Gen.
Variable rng_call : Gen -> Q * Gen.
Hypothesis rng_contract : rng_in_unit_interval rng_call.

(** The index drawn at step [i] lies in [0, i]. *)
Lemma draw_in_range (g : Gen) (i : nat) :
  floor_scaled (fst (rng_call g)) i <= i.
Proof. destruct (rng_contract g). by apply floor_scaled_bound. Qed.

Lemma shuffle_loop_length {A : Type} (i : nat) (g : Gen) (arr : list A) :
  length (fst (shuffle_loop rng_call i g arr)) = length arr.
Proof.
  revert g arr. induction i as [|i IH]; intros g arr; simpl; trivial.
  destruct (rng_call g) as [u g']. by rewrite IH, swap_length.
Qed.

(** Every iteration swaps two cells of the array, so the loop
    rearranges it. *)
Lemma shuffle_loop_perm {A : Type} (i : nat) (g : Gen) (arr : list A) :
  i < length arr -> fst (shuffle_loop rng_call i g arr) ≡ₚ arr.
Proof.
  revert g arr. induction i as [|i IH]; intros g arr Hi; simpl; trivial.
  pose proof (draw_in_range g (S i)) as Hj.
  destruct (rng_call g) as [u g']. simpl in Hj.
  rewrite IH by (rewrite swap_length; lia).
  apply swap_perm; lia.
Qed.

Lemma seededShuffle_perm {A : Type} (array : list A) (seed : string) :
  seededShuffle seedrandom rng_call array seed ≡ₚ array.
Proof.
  unfold seededShuffle. destruct array as [|x array]; [done|].
  apply shuffle_loop_perm. simpl. lia.
Qed.

Lemma seededShuffle_length {A : Type} (array : list A) (seed : string) :
  length (seededShuffle seedrandom rng_call array seed) = length array.
Proof. apply shuffle_loop_length. Qed.

Lemma seededShuffle_small {A : Type} (array : list A) (seed : string) :
  length array <= 1 -> seededShuffle seedrandom rng_call array seed = array.
Proof.
  unfold seededShuffle. intros Hlen.
  replace (length array - 1) with 0 by lia. done.
Qed.

End ShuffleFacts.

(** ** Properties of the grouping *)

Lemma group_step_lookup (acc : gmap string (list Question)) (q : Question)
    (tag : string) :
  default []
    (alter (fun group => group ++ [q]) (difficulty q)
       (match acc !! difficulty q with
        | None => <[difficulty q := []]> acc
        | Some _ => acc
        end) !! tag)
  = default [] (acc !! tag) ++ group_of tag [q].
Proof.
  unfold group_of. simpl. case_bool_decide as Htag.
  - subst tag. rewrite lookup_alter_eq.
    destruct (acc !! difficulty q) as [group|] eqn:Hacc.
    + by rewrite Hacc.
    + by rewrite lookup_insert_eq.
  - rewrite lookup_alter_ne by done. rewrite app_nil_r.
    destruct (acc !! difficulty q); [done|].
    by rewrite lookup_insert_ne.
Qed.

Lemma group_fold_lookup (pool : list Question)
    (acc : gmap string (list Question)) (tag : string) :
  default []
    (fold_left
       (fun acc q =>
          let acc :=
            match acc !! difficulty q with
            | None => <[difficulty q := []]> acc
            | Some _ => acc
            end in
          alter (fun group => group ++ [q]) (difficulty q) acc)
       pool acc !! tag)
  = default [] (acc !! tag) ++ group_of tag pool.
Proof.
  revert acc. induction pool as [|q pool IH]; intros acc.
  - by rewrite app_nil_r.
  - cbn [fold_left]. rewrite IH. cbv zeta. rewrite group_step_lookup.
    rewrite <- app_assoc. f_equal.
    unfold group_of. simpl. by case_bool_decide.
Qed.

(** Reading a group out of the grouped object, with the fallback to the
    empty array, gives the questions of that tag in pool order. *)
Lemma groupByDifficulty_lookup (pool : list Question) (tag : string) :
  match groupByDifficulty pool !! tag with
  | Some group => group
  | None => []
  end = group_of tag pool.
Proof.
  unfold groupByDifficulty.
  pose proof (group_fold_lookup pool ∅ tag) as H.
  rewrite lookup_empty in H. simpl in H. rewrite <- H.
  by destruct (fold_left _ pool ∅ !! tag).
Qed.

Lemma group_of_sublist (tag : string) (pool : list Question) :
  group_of tag pool `sublist_of` pool.
Proof.
  unfold group_of. induction pool as [|q pool IH]; simpl; [constructor|].
  case_bool_decide; by constructor.
Qed.

Lemma elem_of_group_of (tag : string) (pool : list Question) (q : Question) :
  q ∈ group_of tag pool <-> q ∈ pool /\ difficulty q = tag.
Proof.
  unfold group_of. rewrite !list_elem_of_In, filter_In.
  by rewrite bool_decide_eq_true.
Qed.

(** Groups of three different tags are disjoint parts of the pool. *)
Lemma three_groups_submseteq (t1 t2 t3 : string) (pool : list Question) :
  t1 <> t2 -> t1 <> t3 -> t2 <> t3 ->
  group_of t1 pool ++ group_of t2 pool ++ group_of t3 pool ⊆+ pool.
Proof.
  intros H12 H13 H23. unfold group_of.
  induction pool as [|q pool IH]; simpl; [done|].
  repeat case_bool_decide; try congruence.
  - by apply submseteq_skip.
  - simpl. rewrite <- Permutation_middle. by apply submseteq_skip.
  - rewrite app_assoc, <- Permutation_middle, <- app_assoc.
    by apply submseteq_skip.
  - by apply submseteq_cons.
Qed.

(** ** Properties of ids *)

Lemma ids_app (l k : list Question) : ids (l ++ k) = ids l ++ ids k.
Proof. apply map_app. Qed.

Lemma elem_of_ids (x : Ident) (l : list Question) :
  x ∈ ids l <-> exists q, q ∈ l /\ id q = x.
Proof.
  unfold ids. rewrite list_elem_of_In, in_map_iff.
  split; intros (q & H1 & H2); exists q; by rewrite ?list_elem_of_In in *.
Qed.

Lemma ids_submseteq (l k : list Question) : l ⊆+ k -> ids l ⊆+ ids k.
Proof. intros H. unfold ids. induction H; simpl; by econstructor. Qed.

Lemma submseteq_NoDup {A : Type} (l k : list A) : l ⊆+ k -> NoDup k -> NoDup l.
Proof.
  intros Hsub Hk. apply submseteq_Permutation in Hsub as [k' Hk'].
  rewrite Hk' in Hk. by apply NoDup_app in Hk as [? _].
Qed.

Lemma NoDup_ids_submseteq (l k : list Question) :
  l ⊆+ k -> NoDup (ids k) -> NoDup (ids l).
Proof. intros Hsub. apply submseteq_NoDup. by apply ids_submseteq. Qed.

Lemma NoDup_ids_NoDup (l : list Question) : NoDup (ids l) -> NoDup l.
Proof. unfold ids. change (map id l) with (id <$> l). apply NoDup_fmap_1. Qed.

(** In a pool with distinct ids a question is determined by its id. *)
Lemma NoDup_ids_inj (l : list Question) (p q : Question) :
  NoDup (ids l) -> p ∈ l -> q ∈ l -> id p = id q -> p = q.
Proof.
  unfold ids. induction l as [|x l IH]; intros Hnd Hp Hq Heq.
  - by apply elem_of_nil in Hp.
  - simpl in Hnd. apply NoDup_cons in Hnd as [Hx Hnd].
    apply elem_of_cons in Hp as [->|Hp]; apply elem_of_cons in Hq as [->|Hq];
      trivial.
    + exfalso. apply Hx. rewrite Heq. apply (elem_of_ids _ l). by exists q.
    + exfalso. apply Hx. rewrite <- Heq. apply (elem_of_ids _ l). by exists p.
    + by apply IH.
Qed.

(** ** The remaining pool *)

Lemma some_strict_eq (x : Ident) (result : list Question) :
  existsb (fun r => strict_eq (id r) x) result = bool_decide (x ∈ ids result).
Proof.
  induction result as [|r result IH]; cbn [existsb].
  - symmetry. apply bool_decide_eq_false_2, not_elem_of_nil.
  - rewrite IH. unfold strict_eq. cbn [ids map]. fold (ids result).
    destruct (decide (id r = x)) as [Heq|Hne].
    + rewrite (bool_decide_eq_true_2 _ Heq). simpl. symmetry.
      apply bool_decide_eq_true_2. rewrite Heq. left.
    + rewrite (bool_decide_eq_false_2 _ Hne). simpl.
      apply bool_decide_ext. rewrite elem_of_cons. intuition congruence.
Qed.

(** The filter of the code computes the pool minus the selected ids. *)
Lemma remainingPool_minus (pool result : list Question) :
  remainingPool pool result = pool_minus_selected pool result.
Proof.
  unfold remainingPool, pool_minus_selected.
  apply filter_ext. intros q. rewrite some_strict_eq.
  by repeat case_bool_decide.
Qed.

Lemma elem_of_remainingPool (pool result : list Question) (q : Question) :
  q ∈ remainingPool pool result <-> q ∈ pool /\ id q ∉ ids result.
Proof.
  rewrite remainingPool_minus. unfold pool_minus_selected.
  rewrite list_elem_of_In, filter_In, bool_decide_eq_true.
  by rewrite <- list_elem_of_In.
Qed.

Lemma remainingPool_sublist (pool result : list Question) :
  remainingPool pool result `sublist_of` pool.
Proof.
  unfold remainingPool. induction pool as [|q pool IH]; simpl; [constructor|].
  destruct (negb _); by constructor.
Qed.

(** What was selected and what remains make up the pool. *)
Lemma selected_remaining_perm (pool result : list Question) :
  NoDup (ids pool) -> result ⊆+ pool ->
  result ++ remainingPool pool result ≡ₚ pool.
Proof.
  intros Hnd Hsub.
  assert (Hpool : NoDup pool) by by apply NoDup_ids_NoDup.
  apply NoDup_Permutation; trivial.
  - apply NoDup_app. split; [by eapply submseteq_NoDup|]. split.
    + intros q Hq Hrem. apply elem_of_remainingPool in Hrem as [_ Hrem].
      apply Hrem. apply elem_of_ids. by exists q.
    + eapply submseteq_NoDup; [|done].
      apply sublist_submseteq, remainingPool_sublist.
  - intros q. rewrite elem_of_app, elem_of_remainingPool. split.
    + intros [Hq|[Hq _]]; trivial. by eapply elem_of_submseteq.
    + intros Hq. destruct (decide (id q ∈ ids result)) as [Hin|Hout].
      * left. apply elem_of_ids in Hin as (r & Hr & Heq).
        assert (r = q) as <-; [|done].
        eapply NoDup_ids_inj; eauto. by eapply elem_of_submseteq.
      * by right.
Qed.

(** ** Properties of the quota blocks and of the filler *)

Section DailySetFacts.

Context {Gen : Type}.
Variable seedrandom : string -> Gen.
Variable rng_call : Gen -> Q * Gen.

Lemma pullBlocks_blocks (pool : list Question) (daySeed : string) :
  pullBlocks seedrandom rng_call pool daySeed
  = pickFromGroup seedrandom rng_call (groupByDifficulty pool) "Easy" 4 daySeed
    ++ pickFromGroup seedrandom rng_call (groupByDifficulty pool) "Medium" 5 daySeed
    ++ pickFromGroup seedrandom rng_call (groupByDifficulty pool) "Hard" 21 daySeed.
Proof. unfold pullBlocks. simpl. by rewrite <- app_assoc. Qed.

(** A block never holds more than its count. *)
Lemma pick_length_le (grouped : gmap string (list Question))
    (tag : string) (n : nat) (seed : string) :
  length (pickFromGroup seedrandom rng_call grouped tag n seed) <= n.
Proof. unfold pickFromGroup, slice0. rewrite length_take. lia. Qed.

Lemma pullBlocks_length_le (pool : list Question) (daySeed : string) :
  length (pullBlocks seedrandom rng_call pool daySeed) <= 30.
Proof.
  rewrite pullBlocks_blocks, !length_app.
  pose proof (pick_length_le (groupByDifficulty pool) "Easy" 4 daySeed).
  pose proof (pick_length_le (groupByDifficulty pool) "Medium" 5 daySeed).
  pose proof (pick_length_le (groupByDifficulty pool) "Hard" 21 daySeed).
  lia.
Qed.

(** A tag without questions in the pool gives an empty block. *)
Lemma pick_absent (pool : list Question) (tag : string) (n : nat)
    (seed : string) :
  group_of tag pool = [] ->
  pickFromGroup seedrandom rng_call (groupByDifficulty pool) tag n seed = [].
Proof.
  intros Hg. unfold pickFromGroup. rewrite groupByDifficulty_lookup, Hg.
  unfold seededShuffle, slice0. simpl. by rewrite take_nil.
Qed.

Hypothesis rng_contract : rng_in_unit_interval rng_call.

(** A block is a prefix of a rearrangement of its group. *)
Lemma pick_take_perm (pool : list Question) (tag : string) (n : nat)
    (seed : string) :
  exists l, l ≡ₚ group_of tag pool /\
    pickFromGroup seedrandom rng_call (groupByDifficulty pool) tag n seed
    = take n l.
Proof.
  unfold pickFromGroup. rewrite groupByDifficulty_lookup.
  eexists. split; [|done]. by apply seededShuffle_perm.
Qed.

Lemma pick_submseteq (pool : list Question) (tag : string) (n : nat)
    (seed : string) :
  pickFromGroup seedrandom rng_call (groupByDifficulty pool) tag n seed
  ⊆+ group_of tag pool.
Proof.
  destruct (pick_take_perm pool tag n seed) as (l & Hl & ->).
  rewrite <- Hl. apply submseteq_take.
Qed.

Lemma pick_length (pool : list Question) (tag : string) (n : nat)
    (seed : string) :
  length (pickFromGroup seedrandom rng_call (groupByDifficulty pool) tag n seed)
  = min n (length (group_of tag pool)).
Proof.
  destruct (pick_take_perm pool tag n seed) as (l & Hl & ->).
  by rewrite length_take, Hl.
Qed.

Lemma pick_difficulty (pool : list Question) (tag : string) (n : nat)
    (seed : string) (q : Question) :
  q ∈ pickFromGroup seedrandom rng_call (groupByDifficulty pool) tag n seed ->
  q ∈ pool /\ difficulty q = tag.
Proof.
  intros Hq. apply elem_of_group_of.
  eapply elem_of_submseteq; [done|]. apply pick_submseteq.
Qed.

(** The three blocks together are a part of the pool, without
    repetition of a pool position. *)
Lemma pullBlocks_submseteq (pool : list Question) (daySeed : string) :
  pullBlocks seedrandom rng_call pool daySeed ⊆+ pool.
Proof.
  rewrite pullBlocks_blocks.
  etrans; [|by apply (three_groups_submseteq "Easy" "Medium" "Hard" pool)].
  repeat apply submseteq_app; apply pick_submseteq.
Qed.

(** With distinct ids, the filled result is still a part of the pool. *)
Lemma fillOrTrim_submseteq (pool result : list Question) (daySeed : string) :
  NoDup (ids pool) -> result ⊆+ pool ->
  fillOrTrim seedrandom rng_call pool daySeed result ⊆+ pool.
Proof.
  intros Hnd Hsub. unfold fillOrTrim.
  destruct (length result <? 30) eqn:Hshort.
  - cbv zeta. unfold slice0.
    etrans; [|by apply Permutation_submseteq, selected_remaining_perm].
    apply submseteq_skips_l.
    etrans; [apply submseteq_take|].
    by apply Permutation_submseteq, seededShuffle_perm.
  - destruct (30 <? length result); [|done].
    etrans; [apply submseteq_take|done].
Qed.

Lemma buildDailySet_submseteq (pool : list Question) (dateSeed : string) :
  NoDup (ids pool) ->
  buildDailySet seedrandom rng_call pool dateSeed ⊆+ pool.
Proof.
  intros Hnd. unfold buildDailySet.
  apply fillOrTrim_submseteq; [done|]. apply pullBlocks_submseteq.
Qed.

End DailySetFacts.

(** ** The store-passing code computes the functions above

    Each call works on the generator object it has allocated itself, at the
    end of the store; the objects that were there before are handed on as
    they were. *)

Section StoreFacts.

Context {Gen : Type}.
Variable seedrandom : string -> Gen.
Variable rng_call : Gen -> Q * Gen.

Lemma call_rng_last (store : list Gen) (g : Gen) :
  call_rng rng_call (store ++ [g]) (length store)
  = Some (fst (rng_call g), store ++ [snd (rng_call g)]).
Proof.
  unfold call_rng. rewrite lookup_app_r, Nat.sub_diag by lia. simpl.
  destruct (rng_call g) as [u g']. simpl. do 2 f_equal.
  rewrite insert_app_r_alt, Nat.sub_diag by lia. done.
Qed.

Lemma shuffle_loop_in_pure {A : Type} (i : nat) (store : list Gen) (g : Gen)
    (arr : list A) :
  shuffle_loop_in rng_call i (length store) arr (store ++ [g])
  = Some (fst (shuffle_loop rng_call i g arr),
          store ++ [snd (shuffle_loop rng_call i g arr)]).
Proof.
  revert g arr. induction i as [|i IH]; intros g arr; [done|].
  cbn [shuffle_loop_in shuffle_loop]. rewrite call_rng_last.
  destruct (rng_call g) as [u g']. cbn [fst snd]. apply IH.
Qed.

Lemma seededShuffle_in_pure {A : Type} (array : list A) (seed : string)
    (store : list Gen) :
  exists g : Gen,
    seededShuffle_in seedrandom rng_call array seed store
    = Some (seededShuffle seedrandom rng_call array seed, store ++ [g]).
Proof.
  eexists. unfold seededShuffle_in, seededShuffle, new_rng.
  apply shuffle_loop_in_pure.
Qed.

Lemma pickFromGroup_in_pure (grouped : gmap string (list Question))
    (tag : string) (n : nat) (seed : string) (store : list Gen) :
  exists g : Gen,
    pickFromGroup_in seedrandom rng_call grouped tag n seed store
    = Some (pickFromGroup seedrandom rng_call grouped tag n seed,
            store ++ [g]).
Proof.
  unfold pickFromGroup_in, pickFromGroup. cbv zeta.
  edestruct (seededShuffle_in_pure (A := Question)) as [g ->]. by exists g.
Qed.

Lemma pullBlocks_in_pure (pool : list Question) (daySeed : string)
    (store : list Gen) :
  exists fresh : list Gen,
    pullBlocks_in seedrandom rng_call pool daySeed store
    = Some (pullBlocks seedrandom rng_call pool daySeed, store ++ fresh).
Proof.
  unfold pullBlocks_in, pullBlocks. cbv zeta.
  edestruct pickFromGroup_in_pure as [g1 ->].
  edestruct pickFromGroup_in_pure as [g2 ->].
  edestruct pickFromGroup_in_pure as [g3 ->].
  exists [g1; g2; g3]. by rewrite <- !app_assoc.
Qed.

Lemma fillOrTrim_in_pure (pool result : list Question) (daySeed : string)
    (store : list Gen) :
  exists fresh : list Gen,
    fillOrTrim_in seedrandom rng_call pool daySeed result store
    = Some (fillOrTrim seedrandom rng_call pool daySeed result,
            store ++ fresh).
Proof.
  unfold fillOrTrim_in, fillOrTrim.
  destruct (length result <? 30).
  - cbv zeta. edestruct (seededShuffle_in_pure (A := Question)) as [g ->].
    by exists [g].
  - exists []. rewrite app_nil_r. by destruct (30 <? length result).
Qed.

Lemma buildDailySet_in_pure (pool : list Question) (dateSeed : string)
    (store : list Gen) :
  exists fresh : list Gen,
    buildDailySet_in seedrandom rng_call pool dateSeed store
    = Some (buildDailySet seedrandom rng_call pool dateSeed, store ++ fresh).
Proof.
  unfold buildDailySet_in, buildDailySet. cbv zeta.
  destruct (pullBlocks_in_pure pool dateSeed store) as [fresh1 ->].
  destruct (fillOrTrim_in_pure pool
              (pullBlocks seedrandom rng_call pool dateSeed) dateSeed
              (store ++ fresh1)) as [fresh2 ->].
  exists (fresh1 ++ fresh2). by rewrite app_assoc.
Qed.

End StoreFacts.

(** ** The claims of the specification *)

Section Claims.

Context {Gen : Type}.
Variable seedrandom : string -> Gen.
Variable rng_call : Gen -> Q * Gen.
Hypothesis rng_contract : rng_in_unit_interval rng_call.

(** C3.  For every sequence and every seed, the seeded shuffle returns a
    permutation of the sequence: the same multiset of elements and the
    same length.  An empty or single-element sequence is returned
    unchanged. *)
Theorem C3_seededShuffle_permutation {A : Type} (S : list A) (seed : string) :
  seededShuffle seedrandom rng_call S seed ≡ₚ S
  /\ length (seededShuffle seedrandom rng_call S seed) = length S
  /\ (length S <= 1 -> seededShuffle seedrandom rng_call S seed = S).
Proof.
  split; [by apply seededShuffle_perm|].
  split; [apply seededShuffle_length|].
  apply seededShuffle_small.
Qed.



(** C4.  The seeded shuffle is deterministic.  Whatever generator objects
    the process already holds, a call returns the value of the function
    [seededShuffle] of its two arguments; a second call with the same
    arguments, made after the first one in the store the first one left,
    returns the same list; and the generator objects that existed before
    a call are handed on unchanged. *)
Theorem C4_seededShuffle_deterministic {A : Type} (S : list A)
    (seed : string) (store : list Gen) :
  exists (r : list A) (store1 store2 : list Gen),
    seededShuffle_in seedrandom rng_call S seed store = Some (r, store1)
    /\ seededShuffle_in seedrandom rng_call S seed store1 = Some (r, store2)
    /\ store `prefix_of` store1
    /\ (forall other : list Gen,
          fst <$> seededShuffle_in seedrandom rng_call S seed other = Some r).
Proof.
  destruct (seededShuffle_in_pure seedrandom rng_call S seed store)
    as [g1 H1].
  destruct (seededShuffle_in_pure seedrandom rng_call S seed (store ++ [g1]))
    as [g2 H2].
  eexists _, _, _. split; [exact H1|]. split; [exact H2|].
  split; [by apply prefix_app_r|].
  intros other.
  destruct (seededShuffle_in_pure seedrandom rng_call S seed other)
    as [g ->].
  done.
Qed.

(** C5.  [buildDailySet] is deterministic: with the same pool and the
    same seed, two calls made one after the other return identical
    lists, and so does a call made with any other generator objects in
    the process. *)
Theorem C5_buildDailySet_deterministic (pool : list Question)
    (daySeed : string) (store : list Gen) :
  exists (r : list Question) (store1 store2 : list Gen),
    buildDailySet_in seedrandom rng_call pool daySeed store = Some (r, store1)
    /\ buildDailySet_in seedrandom rng_call pool daySeed store1
       = Some (r, store2)
    /\ store `prefix_of` store1
    /\ (forall other : list Gen,
          fst <$> buildDailySet_in seedrandom rng_call pool daySeed other
          = Some r).
Proof.
  destruct (buildDailySet_in_pure seedrandom rng_call pool daySeed store)
    as [f1 H1].
  destruct (buildDailySet_in_pure seedrandom rng_call pool daySeed
              (store ++ f1)) as [f2 H2].
  eexists _, _, _. split; [exact H1|]. split; [exact H2|].
  split; [by apply prefix_app_r|].
  intros other.
  destruct (buildDailySet_in_pure seedrandom rng_call pool daySeed other)
    as [f ->].
  done.
Qed.


(** C7.  Uniqueness invariant: for a pool whose questions have pairwise
    distinct ids, no id appears twice in the list returned by
    [buildDailySet], whether or not the quotas are satisfiable and
    whether or not the filler step runs. *)
Theorem C7_buildDailySet_unique_ids (pool : list Question)
    (daySeed : string) :
  NoDup (ids pool) ->
  NoDup (ids (buildDailySet seedrandom rng_call pool daySeed)).
Proof.
  intros Hnd. eapply NoDup_ids_submseteq; [|done].
  by apply buildDailySet_submseteq.
Qed.

(** On the map of own properties: a pool with distinct ids and fewer than
    30 questions comes back whole, rearranged. *)
Lemma small_pool_rearranged (pool : list Question) (daySeed : string) :
  NoDup (ids pool) ->
  length pool < 30 ->
  let result := buildDailySet seedrandom rng_call pool daySeed in
  result ≡ₚ pool
  /\ NoDup result
  /\ length result < 30.
Proof.
  intros Hnd Hsmall result.
  pose proof (pullBlocks_submseteq seedrandom rng_call rng_contract
                pool daySeed) as Hsub.
  pose proof (selected_remaining_perm pool _ Hnd Hsub) as Hall.
  assert (Hperm : result ≡ₚ pool).
  { unfold result, buildDailySet, fillOrTrim. cbv zeta.
    set (blocks := pullBlocks seedrandom rng_call pool daySeed) in *.
    pose proof (Permutation_length Hall) as Hlen.
    rewrite length_app in Hlen.
    assert (length blocks < 30) as Hshort by lia.
    apply Nat.ltb_lt in Hshort as ->. unfold slice0.
    rewrite take_ge by (rewrite seededShuffle_length; lia).
    rewrite <- Hall at 2. apply Permutation_app_head.
    by apply seededShuffle_perm. }
  split; [done|]. split.
  - rewrite Hperm. by apply NoDup_ids_NoDup.
  - by rewrite Hperm.
Qed.

(** On the map of own properties: the blocks hold Easy, Medium and Hard
    questions only, the result is the blocks followed by the filler, and a
    tag without questions gives an empty block. *)
Lemma quota_blocks_tags (pool : list Question) (daySeed : string) :
  let blocks := pullBlocks seedrandom rng_call pool daySeed in
  let result := buildDailySet seedrandom rng_call pool daySeed in
  (forall q : Question, q ∈ blocks ->
     difficulty q = "Easy" \/ difficulty q = "Medium" \/ difficulty q = "Hard")
  /\ (exists filler : list Question, result = blocks ++ filler)
  /\ (forall (i : nat) (q : Question), result !! i = Some q ->
        difficulty q <> "Easy" -> difficulty q <> "Medium" ->
        difficulty q <> "Hard" -> length blocks <= i)
  /\ (forall (tag : string) (n : nat),
        group_of tag pool = [] ->
        pickFromGroup seedrandom rng_call (groupByDifficulty pool) tag n
          daySeed = []).
Proof.
  intros blocks result.
  assert (Htags : forall q : Question, q ∈ blocks ->
     difficulty q = "Easy" \/ difficulty q = "Medium" \/ difficulty q = "Hard").
  { intros q. unfold blocks. rewrite pullBlocks_blocks, !elem_of_app.
    intros [Hq|[Hq|Hq]];
      apply (pick_difficulty seedrandom rng_call rng_contract) in Hq as [_ ?];
      auto. }
  assert (Hfill : exists filler : list Question, result = blocks ++ filler).
  { unfold result, buildDailySet, fillOrTrim. cbv zeta. fold blocks.
    pose proof (pullBlocks_length_le seedrandom rng_call pool daySeed) as Hle.
    fold blocks in Hle.
    destruct (length blocks <? 30); [by eexists|].
    exists []. rewrite app_nil_r.
    destruct (30 <? length blocks) eqn:Hlong; [|done].
    apply Nat.ltb_lt in Hlong. lia. }
  split; [done|]. split; [done|]. split.
  - intros i q Hq HE HM HH. destruct Hfill as [filler Hres].
    rewrite Hres in Hq.
    destruct (decide (i < length blocks)) as [Hi|Hi]; [|lia].
    rewrite lookup_app_l in Hq by done.
    apply list_elem_of_lookup_2, Htags in Hq. tauto.
  - intros tag n. apply pick_absent.
Qed.

(** C10.  The list returned by [buildDailySet] never has more than 30
    items.  Each quota block is capped at its count and the counts sum to
    30, so the three blocks together never exceed 30 and the test of the
    trimming branch is never true. *)
Theorem C10_buildDailySet_at_most_thirty (pool : list Question)
    (daySeed : string) :
  let blocks := pullBlocks seedrandom rng_call pool daySeed in
  length (buildDailySet seedrandom rng_call pool daySeed) <= 30
  /\ Easy counts + Medium counts + Hard counts = 30
  /\ length blocks <= 30
  /\ (30 <? length blocks) = false.
Proof.
  intros blocks.
  pose proof (pullBlocks_length_le seedrandom rng_call pool daySeed) as Hle.
  fold blocks in Hle.
  split; [|split; [done|split; [done|by apply Nat.ltb_ge]]].
  unfold buildDailySet, fillOrTrim. cbv zeta. fold blocks.
  destruct (length blocks <? 30) eqn:Hshort.
  - apply Nat.ltb_lt in Hshort. unfold slice0.
    rewrite length_app, length_take. lia.
  - destruct (30 <? length blocks); [|done].
    rewrite length_take. lia.
Qed.

End Claims.

(** ** Worked examples with the small generator *)

Module FixtureFacts.
Import Fixture.

Lemma toy_rng_contract : rng_in_unit_interval toy_rng.
Proof.
  intros g. unfold toy_rng, Qle, Qlt. cbn [fst Qnum Qden].
  pose proof (N.mod_lt g 1000 ltac:(done)) as Hr.
  revert Hr. generalize (g `mod` 1000)%N. intros r Hr. lia.
Qed.

Example shuffle_eight :
  seededShuffle toy_seedrandom toy_rng [1; 2; 3; 4; 5; 6; 7; 8] "abc"
  = [4; 1; 7; 3; 5; 6; 2; 8].
Proof. vm_compute. reflexivity. Qed.

Example shuffle_eight_other_seed :
  seededShuffle toy_seedrandom toy_rng [1; 2; 3; 4; 5; 6; 7; 8] "abd"
  = [1; 4; 7; 5; 2; 3; 6; 8].
Proof. vm_compute. reflexivity. Qed.

(** A pool of seven: the blocks take 2 Easy, 1 Medium and 3 Hard, the
    filler brings in the Expert question. *)
Example small_pool_daily_set :
  map (fun q => (id q, difficulty q))
    (buildDailySet toy_seedrandom toy_rng small_pool "2024-05-01-1")
  = [(IdNum 0, "Easy"); (IdNum 1, "Easy"); (IdNum 100, "Medium");
     (IdNum 200, "Hard"); (IdNum 201, "Hard"); (IdNum 202, "Hard");
     (IdNum 300, "Expert")].
Proof. vm_compute. reflexivity. Qed.

(** With only 2 Easy questions the blocks hold 28 items and the filler
    adds two Hard ones. *)
Example short_easy_pool_daily_set :
  length (pullBlocks toy_seedrandom toy_rng short_easy_pool "2024-05-01-1")
  = 28
  /\ map difficulty
       (drop 28
          (buildDailySet toy_seedrandom toy_rng short_easy_pool
             "2024-05-01-1"))
     = ["Hard"; "Hard"].
Proof. vm_compute. split; reflexivity. Qed.

(** A call leaves the generator objects of earlier calls alone and adds
    its own four. *)
Example small_pool_store :
  snd <$> buildDailySet_in toy_seedrandom toy_rng small_pool "2024-05-01-1"
            [5%N]
  = Some [5%N; 1665035489%N; 1141626939%N; 1303142295%N; 1861290518%N].
Proof. vm_compute. reflexivity. Qed.


Lemma short_easy_pool_ids : NoDup (ids short_easy_pool).
Proof. apply (bool_decide_unpack _). vm_compute. exact I. Defined.

Lemma small_pool_ids : NoDup (ids small_pool).
Proof. apply (bool_decide_unpack _). vm_compute. exact I. Defined.

End FixtureFacts.

(** ** The claims at concrete inputs *)

Lemma C3_witness :
  rng_in_unit_interval Fixture.toy_rng
  /\ (seededShuffle Fixture.toy_seedrandom Fixture.toy_rng [1; 2; 3; 4; 5] "s"
        ≡ₚ [1; 2; 3; 4; 5]
      /\ length (seededShuffle Fixture.toy_seedrandom Fixture.toy_rng
                   [1; 2; 3; 4; 5] "s") = 5
      /\ (5 <= 1 ->
          seededShuffle Fixture.toy_seedrandom Fixture.toy_rng
            [1; 2; 3; 4; 5] "s" = [1; 2; 3; 4; 5])).
Proof.
  split; [exact FixtureFacts.toy_rng_contract|].
  exact (C3_seededShuffle_permutation Fixture.toy_seedrandom Fixture.toy_rng
           FixtureFacts.toy_rng_contract [1; 2; 3; 4; 5] "s").
Defined.




Lemma C7_witness :
  rng_in_unit_interval Fixture.toy_rng
  /\ NoDup (ids Fixture.short_easy_pool)
  /\ NoDup (ids (buildDailySet Fixture.toy_seedrandom Fixture.toy_rng
                   Fixture.short_easy_pool "2024-05-02-2")).
Proof.
  split; [exact FixtureFacts.toy_rng_contract|].
  split; [exact FixtureFacts.short_easy_pool_ids|].
  exact (C7_buildDailySet_unique_ids Fixture.toy_seedrandom Fixture.toy_rng
           FixtureFacts.toy_rng_contract Fixture.short_easy_pool "2024-05-02-2"
           FixtureFacts.short_easy_pool_ids).
Defined.

(** ** Further properties of the array primitives *)

(** X2.  Line 26 exchanges two cells and touches nothing else: for two
    positions inside the array, the cell [i] gets the old content of [j],
    the cell [j] the old content of [i], every other cell keeps its
    content, and doing it twice gives the array back. *)
Theorem X2_swap_exchange {A : Type} (arr : list A) (i j : nat) :
  i < length arr -> j < length arr ->
  swap arr i j !! i = arr !! j
  /\ swap arr i j !! j = arr !! i
  /\ (forall k : nat, k <> i -> k <> j -> swap arr i j !! k = arr !! k)
  /\ swap (swap arr i j) i j = arr.
Proof.
  intros Hi Hj.
  destruct (lookup_lt_is_Some_2 arr i Hi) as [ai Hai].
  destruct (lookup_lt_is_Some_2 arr j Hj) as [aj Haj].
  assert (Hsw : swap arr i j = <[j := ai]> (<[i := aj]> arr))
    by (unfold swap; by rewrite Hai, Haj).
  assert (H1 : swap arr i j !! i = arr !! j).
  { rewrite Hsw, Haj. destruct (decide (i = j)) as [->|Hne].
    - rewrite list_lookup_insert_eq by (rewrite length_insert; lia). congruence.
    - rewrite list_lookup_insert_ne by done.
      by rewrite list_lookup_insert_eq by lia. }
  assert (H2 : swap arr i j !! j = arr !! i).
  { rewrite Hsw, Hai.
    by rewrite list_lookup_insert_eq by (rewrite length_insert; lia). }
  assert (H3 : forall k : nat, k <> i -> k <> j -> swap arr i j !! k = arr !! k).
  { intros k Hki Hkj. rewrite Hsw.
    by rewrite !list_lookup_insert_ne by done. }
  repeat split; trivial.
  apply list_eq. intros k.
  unfold swap at 1. rewrite H1, H2, Haj, Hai.
  destruct (decide (k = j)) as [->|Hkj].
  - rewrite list_lookup_insert_eq
      by (rewrite length_insert, swap_length; lia). done.
  - rewrite list_lookup_insert_ne by done.
    destruct (decide (k = i)) as [->|Hki].
    + rewrite list_lookup_insert_eq by (rewrite swap_length; lia). done.
    + rewrite list_lookup_insert_ne by done. by apply H3.
Qed.

(** ** Further properties of the shuffle *)

Lemma swap_map {A B : Type} (f : A -> B) (arr : list A) (i j : nat) :
  swap (map f arr) i j = map f (swap arr i j).
Proof.
  unfold swap. change (map f) with (fmap (M := list) f).
  rewrite !list_lookup_fmap.
  destruct (arr !! i) as [ai|], (arr !! j) as [aj|]; simpl; trivial.
  by rewrite !list_fmap_insert.
Qed.

Lemma map_nth_indices {A : Type} (S : list A) (d : A) :
  map (fun k => nth k S d) (seq 0 (length S)) = S.
Proof.
  induction S as [|x S IH]; [done|].
  cbn [length seq map nth]. f_equal.
  rewrite <- seq_shift, map_map. exact IH.
Qed.

Section ShuffleMore.

Context {Gen : Type}.
Variable seedrandom : string -> Gen.
Variable rng_call : Gen -> Q * Gen.

Lemma shuffle_loop_map {A B : Type} (f : A -> B) (i : nat) (g : Gen)
    (arr : list A) :
  shuffle_loop rng_call i g (map f arr)
  = (map f (fst (shuffle_loop rng_call i g arr)),
     snd (shuffle_loop rng_call i g arr)).
Proof.
  revert g arr. induction i as [|i IH]; intros g arr; [done|].
  cbn [shuffle_loop]. destruct (rng_call g) as [u g'].
  rewrite swap_map. apply IH.
Qed.

Lemma seededShuffle_map {A B : Type} (f : A -> B) (S : list A)
    (seed : string) :
  seededShuffle seedrandom rng_call (map f S) seed
  = map f (seededShuffle seedrandom rng_call S seed).
Proof.
  unfold seededShuffle. cbv zeta.
  by rewrite length_map, shuffle_loop_map.
Qed.

(** X3.  The rearrangement made by the shuffle depends on the seed and on
    the length of the array only, not on its elements: shuffling the image
    of an array under a function gives the image of the shuffled array.
    In particular the shuffle of any array is read off the shuffle of its
    index list [0, 1, ..., length - 1]. *)
Theorem X3_seededShuffle_natural {A B : Type} (f : A -> B) (S : list A)
    (seed : string) :
  rng_in_unit_interval rng_call ->
  seededShuffle seedrandom rng_call (map f S) seed
  = map f (seededShuffle seedrandom rng_call S seed)
  /\ forall d : A,
       seededShuffle seedrandom rng_call S seed
       = map (fun k => nth k S d)
           (seededShuffle seedrandom rng_call (seq 0 (length S)) seed).
Proof.
  intros _. split; [apply seededShuffle_map|].
  intros d. rewrite <- seededShuffle_map. f_equal.
  symmetry. apply map_nth_indices.
Qed.

Hypothesis rng_contract : rng_in_unit_interval rng_call.

(** X4.  Once the loop has passed a position it does not come back to it:
    run from index [i] on an array longer than [i], it leaves every cell
    above [i] as it is.  So each cell of the shuffled array is final as
    soon as the loop has handled its index. *)
Theorem X4_shuffle_loop_settled {A : Type} (i : nat) (g : Gen)
    (arr : list A) (k : nat) :
  i < length arr -> i < k ->
  fst (shuffle_loop rng_call i g arr) !! k = arr !! k.
Proof.
  revert g arr. induction i as [|i IH]; intros g arr Hi Hk; [done|].
  cbn [shuffle_loop].
  pose proof (draw_in_range rng_call rng_contract g (S i)) as Hj.
  destruct (rng_call g) as [u g']. cbn [fst] in Hj.
  rewrite IH by (rewrite ?swap_length; lia).
  unfold swap.
  destruct (arr !! S i) as [ai|], (arr !! floor_scaled u (S i)) as [aj|];
    trivial.
  by rewrite !list_lookup_insert_ne by lia.
Qed.

End ShuffleMore.

Section ShuffleDraws.

Context {Gen : Type}.
Variable seedrandom : string -> Gen.
Variable rng_call : Gen -> Q * Gen.

Lemma shuffle_loop_generator {A : Type} (i : nat) (g : Gen) (arr : list A) :
  snd (shuffle_loop rng_call i g arr)
  = Nat.iter i (fun g => snd (rng_call g)) g.
Proof.
  revert g arr. induction i as [|i IH]; intros g arr; [done|].
  rewrite Nat.iter_succ_r. cbn [shuffle_loop].
  destruct (rng_call g) as [u g']. apply IH.
Qed.

Lemma seededShuffle_in_spent {A : Type} (array : list A) (seed : string)
    (store : list Gen) :
  seededShuffle_in seedrandom rng_call array seed store
  = Some (seededShuffle seedrandom rng_call array seed,
          store ++ [Nat.iter (length array - 1) (fun g => snd (rng_call g))
                      (seedrandom seed)]).
Proof.
  unfold seededShuffle_in, seededShuffle, new_rng. cbv zeta.
  rewrite shuffle_loop_in_pure. by rewrite shuffle_loop_generator.
Qed.

(** X5.  A call of the shuffle draws exactly [length - 1] numbers, all
    from the generator it has created itself from the seed: in the store
    it leaves, the generator objects that were there before are unchanged
    and the new one has been advanced that many times.  For an empty or a
    single-element array nothing is drawn: the array comes back as it is
    and the new generator is still in its initial state. *)
Theorem X5_seededShuffle_draws {A : Type} (array : list A) (seed : string)
    (store : list Gen) :
  seededShuffle_in seedrandom rng_call array seed store
  = Some (seededShuffle seedrandom rng_call array seed,
          store ++ [Nat.iter (length array - 1) (fun g => snd (rng_call g))
                      (seedrandom seed)])
  /\ (length array <= 1 ->
      seededShuffle_in seedrandom rng_call array seed store
      = Some (array, store ++ [seedrandom seed])).
Proof.
  split; [apply seededShuffle_in_spent|].
  intros Hlen. rewrite seededShuffle_in_spent.
  unfold seededShuffle. cbv zeta.
  by replace (length array - 1) with 0 by lia.
Qed.

End ShuffleDraws.

(** ** Further properties of the grouping *)

Lemma group_step_other (acc : gmap string (list Question)) (q : Question)
    (tag : string) :
  tag <> difficulty q ->
  alter (fun group => group ++ [q]) (difficulty q)
    (match acc !! difficulty q with
     | None => <[difficulty q := []]> acc
     | Some _ => acc
     end) !! tag
  = acc !! tag.
Proof.
  intros Hne. rewrite lookup_alter_ne by done.
  destruct (acc !! difficulty q); [done|]. by rewrite lookup_insert_ne.
Qed.

Lemma group_step_same (acc : gmap string (list Question)) (q : Question) :
  alter (fun group => group ++ [q]) (difficulty q)
    (match acc !! difficulty q with
     | None => <[difficulty q := []]> acc
     | Some _ => acc
     end) !! difficulty q
  = Some (default [] (acc !! difficulty q) ++ [q]).
Proof.
  rewrite lookup_alter_eq.
  destruct (acc !! difficulty q) as [group|] eqn:Hacc.
  - by rewrite Hacc.
  - by rewrite lookup_insert_eq.
Qed.

(** The reduction never leaves an empty array under a key. *)
Lemma group_fold_nonempty (pool : list Question)
    (acc : gmap string (list Question)) :
  (forall tag group, acc !! tag = Some group -> group <> []) ->
  forall tag group,
    fold_left
      (fun acc q =>
         let acc :=
           match acc !! difficulty q with
           | None => <[difficulty q := []]> acc
           | Some _ => acc
           end in
         alter (fun group => group ++ [q]) (difficulty q) acc)
      pool acc !! tag = Some group ->
    group <> [].
Proof.
  revert acc. induction pool as [|q pool IH]; intros acc Hacc; [exact Hacc|].
  cbn [fold_left]. apply IH. cbv zeta. intros tag group.
  destruct (decide (tag = difficulty q)) as [->|Hne].
  - rewrite group_step_same. intros [= <-]. by destruct (default _ _).
  - rewrite group_step_other by done. apply Hacc.
Qed.

(** The own properties: a key holds exactly the questions with that tag,
    in pool order, and never an empty array. *)
Lemma groupByDifficulty_own_lookup (pool : list Question) (tag : string) :
  groupByDifficulty pool !! tag
  = match group_of tag pool with
    | [] => None
    | q :: group => Some (q :: group)
    end.
Proof.
  pose proof (groupByDifficulty_lookup pool tag) as Hlook.
  assert (Hne : forall group,
            groupByDifficulty pool !! tag = Some group -> group <> []).
  { apply (group_fold_nonempty pool ∅). intros ? ?. by rewrite lookup_empty. }
  destruct (groupByDifficulty pool !! tag) as [group|].
  - subst group. specialize (Hne _ eq_refl).
    by destruct (group_of tag pool).
  - by rewrite <- Hlook.
Qed.




(** ** Further properties of the daily set *)

Section DailySetMore.

Context {Gen : Type}.
Variable seedrandom : string -> Gen.
Variable rng_call : Gen -> Q * Gen.

(** The result is the blocks followed by the filler; the trimming branch
    never changes it. *)
Lemma buildDailySet_blocks_filler (pool : list Question) (daySeed : string) :
  buildDailySet seedrandom rng_call pool daySeed
  = pullBlocks seedrandom rng_call pool daySeed
    ++ (if length (pullBlocks seedrandom rng_call pool daySeed) <? 30
        then take (30 - length (pullBlocks seedrandom rng_call pool daySeed))
               (seededShuffle seedrandom rng_call
                  (remainingPool pool
                     (pullBlocks seedrandom rng_call pool daySeed))
                  (daySeed +:+ "-filler"))
        else []).
Proof.
  unfold buildDailySet, fillOrTrim. cbv zeta.
  pose proof (pullBlocks_length_le seedrandom rng_call pool daySeed) as Hle.
  destruct (length _ <? 30); [done|]. rewrite app_nil_r.
  destruct (30 <? length _) eqn:Hlong; [|done].
  apply Nat.ltb_lt in Hlong. lia.
Qed.

Hypothesis rng_contract : rng_in_unit_interval rng_call.


(** X9.  [buildDailySet] never returns a question that is not in the
    pool, whether or not the ids of the pool are distinct. *)
Theorem X9_buildDailySet_from_pool (pool : list Question) (daySeed : string)
    (q : Question) :
  q ∈ buildDailySet seedrandom rng_call pool daySeed -> q ∈ pool.
Proof.
  rewrite buildDailySet_blocks_filler, elem_of_app. intros [Hq|Hq].
  - eapply elem_of_submseteq; [done|]. by apply pullBlocks_submseteq.
  - destruct (length _ <? 30); [|by apply elem_of_nil in Hq].
    apply (subseteq_take _ _ q) in Hq.
    rewrite (seededShuffle_perm seedrandom rng_call rng_contract) in Hq.
    by apply elem_of_remainingPool in Hq as [? _].
Qed.

(** Blocks and filler together: 30 questions, or the whole pool. *)
Lemma buildDailySet_length_min (pool : list Question) (daySeed : string) :
  NoDup (ids pool) ->
  length (buildDailySet seedrandom rng_call pool daySeed)
  = min 30 (length pool).
Proof.
  intros Hnd.
  pose proof (pullBlocks_submseteq seedrandom rng_call rng_contract
                pool daySeed) as Hsub.
  pose proof (Permutation_length (selected_remaining_perm pool _ Hnd Hsub))
    as Hall.
  pose proof (pullBlocks_length_le seedrandom rng_call pool daySeed) as Hle.
  rewrite buildDailySet_blocks_filler.
  rewrite length_app in Hall |- *.
  destruct (length (pullBlocks _ _ _ _) <? 30) eqn:Hshort.
  - apply Nat.ltb_lt in Hshort.
    rewrite length_take, seededShuffle_length.
    revert Hall Hshort.
    generalize (length (pullBlocks seedrandom rng_call pool daySeed)).
    generalize (length (remainingPool pool
                          (pullBlocks seedrandom rng_call pool daySeed))).
    intros; lia.
  - apply Nat.ltb_ge in Hshort. cbn [length]. revert Hall Hshort Hle.
    generalize (length (pullBlocks seedrandom rng_call pool daySeed)).
    generalize (length (remainingPool pool
                          (pullBlocks seedrandom rng_call pool daySeed))).
    intros; lia.
Qed.

End DailySetMore.

Section DailySetShortfall.

Context {Gen : Type}.
Variable seedrandom : string -> Gen.
Variable rng_call : Gen -> Q * Gen.
Hypothesis rng_contract : rng_in_unit_interval rng_call.

(** A group that fits into its count is taken whole. *)
Lemma pick_whole_group (pool : list Question) (tag : string) (n : nat)
    (seed : string) :
  length (group_of tag pool) <= n ->
  pickFromGroup seedrandom rng_call (groupByDifficulty pool) tag n seed
  ≡ₚ group_of tag pool.
Proof.
  intros Hle.
  destruct (pick_take_perm seedrandom rng_call rng_contract pool tag n seed)
    as (l & Hl & ->).
  rewrite take_ge by (rewrite Hl; lia). exact Hl.
Qed.


Lemma surplus_of_unselected (pool : list Question) (daySeed : string)
    (tag : string) (n : nat) (q : Question) :
  q ∈ pool -> difficulty q = tag ->
  id q ∉ ids (pickFromGroup seedrandom rng_call (groupByDifficulty pool)
                tag n daySeed) ->
  n < length (group_of tag pool).
Proof.
  intros Hq Htag Hout.
  destruct (decide (n < length (group_of tag pool))) as [|Hle]; [done|].
  exfalso. apply Hout. apply elem_of_ids. exists q. split; [|done].
  rewrite pick_whole_group by lia. by apply elem_of_group_of.
Qed.

(** X12.  The filler draws on what the blocks left over.  A question that
    stands behind the blocks in the result is a pool question whose id is
    not among the ids of the blocks, also when the pool repeats ids; and
    if its tag is Easy, Medium or Hard, the pool has more questions of
    that tag than the count of the tag. *)
Theorem X12_filler_from_surplus (pool : list Question) (daySeed : string)
    (i : nat) (q : Question) :
  let blocks := pullBlocks seedrandom rng_call pool daySeed in
  buildDailySet seedrandom rng_call pool daySeed !! i = Some q ->
  length blocks <= i ->
  (q ∈ pool)
  /\ (id q ∉ ids blocks)
  /\ (difficulty q = "Easy" -> 4 < length (group_of "Easy" pool))
  /\ (difficulty q = "Medium" -> 5 < length (group_of "Medium" pool))
  /\ (difficulty q = "Hard" -> 21 < length (group_of "Hard" pool)).
Proof.
  intros blocks Hq Hi.
  rewrite buildDailySet_blocks_filler in Hq. fold blocks in Hq.
  rewrite lookup_app_r in Hq by done.
  destruct (length blocks <? 30); [|by rewrite lookup_nil in Hq].
  apply list_elem_of_lookup_2, (subseteq_take _ _ q) in Hq.
  rewrite (seededShuffle_perm seedrandom rng_call rng_contract) in Hq.
  apply elem_of_remainingPool in Hq as [Hpool Hout].
  split; [done|]. split; [done|].
  unfold blocks in Hout. rewrite pullBlocks_blocks, !ids_app in Hout.
  rewrite !not_elem_of_app in Hout. destruct Hout as (HE & HM & HH).
  repeat split; intros Htag; by eapply surplus_of_unselected.
Qed.

End DailySetShortfall.

(** ** Editing the content of questions *)

Lemma group_of_map (f : Question -> Question) (tag : string)
    (pool : list Question) :
  (forall q, difficulty (f q) = difficulty q) ->
  group_of tag (map f pool) = map f (group_of tag pool).
Proof.
  intros Hd. unfold group_of. induction pool as [|q pool IH]; [done|].
  cbn [map List.filter]. rewrite Hd, IH. by case_bool_decide.
Qed.

Lemma ids_map (f : Question -> Question) (l : list Question) :
  (forall q, id (f q) = id q) -> ids (map f l) = ids l.
Proof.
  intros Hid. unfold ids. rewrite map_map. apply map_ext. intros q. apply Hid.
Qed.

Lemma remainingPool_map (f : Question -> Question)
    (pool result : list Question) :
  (forall q, id (f q) = id q) ->
  remainingPool (map f pool) (map f result)
  = map f (remainingPool pool result).
Proof.
  intros Hid. unfold remainingPool.
  induction pool as [|q pool IH]; [done|].
  cbn [map List.filter]. rewrite IH, !some_strict_eq, Hid, ids_map by done.
  by destruct (negb _).
Qed.

Section Relabel.

Context {Gen : Type}.
Variable seedrandom : string -> Gen.
Variable rng_call : Gen -> Q * Gen.

Lemma pickFromGroup_map (f : Question -> Question) (pool : list Question)
    (tag : string) (n : nat) (seed : string) :
  (forall q, difficulty (f q) = difficulty q) ->
  pickFromGroup seedrandom rng_call (groupByDifficulty (map f pool)) tag n seed
  = map f (pickFromGroup seedrandom rng_call (groupByDifficulty pool) tag n
             seed).
Proof.
  intros Hd. unfold pickFromGroup, slice0.
  rewrite !groupByDifficulty_lookup, group_of_map by done.
  by rewrite seededShuffle_map, firstn_map.
Qed.

(** X13.  Which questions are chosen, and in which order, depends on the
    ids and the difficulty tags of the pool only.  If every question of
    the pool is replaced by one with the same id and the same tag (an
    edited text, other options, another correct answer), the daily set
    is the old daily set with the same replacement made. *)
Theorem X13_buildDailySet_content_blind (f : Question -> Question)
    (pool : list Question) (daySeed : string) :
  rng_in_unit_interval rng_call ->
  (forall q, id (f q) = id q) ->
  (forall q, difficulty (f q) = difficulty q) ->
  buildDailySet seedrandom rng_call (map f pool) daySeed
  = map f (buildDailySet seedrandom rng_call pool daySeed).
Proof.
  intros _ Hid Hd.
  assert (Hblocks : pullBlocks seedrandom rng_call (map f pool) daySeed
                    = map f (pullBlocks seedrandom rng_call pool daySeed)).
  { rewrite !pullBlocks_blocks, !pickFromGroup_map by done.
    by rewrite !map_app. }
  rewrite !buildDailySet_blocks_filler, Hblocks, length_map, map_app.
  f_equal. destruct (length _ <? 30); [|done].
  by rewrite remainingPool_map, seededShuffle_map, firstn_map.
Qed.

End Relabel.

(** ** Properties of the quiz endpoint *)

Lemma toPayload_same (q : Question) : toPayload q = q.
Proof. by destruct q. Qed.

Lemma map_toPayload (l : list Question) : map toPayload l = l.
Proof.
  induction l as [|q l IH]; [done|].
  cbn [map]. by rewrite toPayload_same, IH.
Qed.

(** ** Generators created by one call *)

Section StoreMore.

Context {Gen : Type}.
Variable seedrandom : string -> Gen.
Variable rng_call : Gen -> Q * Gen.





End StoreMore.

(** ** What the daily set depends on *)

Section Dependence.

Context {Gen : Type}.
Variable seedrandom : string -> Gen.
Variable rng_call : Gen -> Q * Gen.
Hypothesis rng_contract : rng_in_unit_interval rng_call.

Lemma pickFromGroup_same_group (pool1 pool2 : list Question) (tag : string)
    (n : nat) (seed : string) :
  group_of tag pool1 = group_of tag pool2 ->
  pickFromGroup seedrandom rng_call (groupByDifficulty pool1) tag n seed
  = pickFromGroup seedrandom rng_call (groupByDifficulty pool2) tag n seed.
Proof.
  intros Hg. unfold pickFromGroup.
  by rewrite !groupByDifficulty_lookup, Hg.
Qed.

(** On the map of own properties: the blocks, and with full groups the
    daily set, depend on the pool through the three groups only. *)
Lemma three_groups_decide (pool1 pool2 : list Question)
    (daySeed : string) :
  group_of "Easy" pool1 = group_of "Easy" pool2 ->
  group_of "Medium" pool1 = group_of "Medium" pool2 ->
  group_of "Hard" pool1 = group_of "Hard" pool2 ->
  pullBlocks seedrandom rng_call pool1 daySeed
  = pullBlocks seedrandom rng_call pool2 daySeed
  /\ (4 <= length (group_of "Easy" pool1) ->
      5 <= length (group_of "Medium" pool1) ->
      21 <= length (group_of "Hard" pool1) ->
      buildDailySet seedrandom rng_call pool1 daySeed
      = buildDailySet seedrandom rng_call pool2 daySeed).
Proof.
  intros HE HM HH.
  assert (Hblocks : pullBlocks seedrandom rng_call pool1 daySeed
                    = pullBlocks seedrandom rng_call pool2 daySeed).
  { rewrite !pullBlocks_blocks.
    by rewrite (pickFromGroup_same_group pool1 pool2 "Easy"),
         (pickFromGroup_same_group pool1 pool2 "Medium"),
         (pickFromGroup_same_group pool1 pool2 "Hard"). }
  split; [done|]. intros H4 H5 H21.
  assert (Hlen : length (pullBlocks seedrandom rng_call pool1 daySeed) = 30).
  { rewrite pullBlocks_blocks, !length_app, !pick_length by done.
    revert H4 H5 H21.
    generalize (length (group_of "Easy" pool1)).
    generalize (length (group_of "Medium" pool1)).
    generalize (length (group_of "Hard" pool1)).
    intros; lia. }
  rewrite !buildDailySet_blocks_filler, <- Hblocks, Hlen. done.
Qed.

End Dependence.

(** ** The further properties at concrete inputs *)

Lemma X2_witness :
  2 < length [10; 20; 30] /\ 0 < length [10; 20; 30]
  /\ swap [10; 20; 30] 2 0 !! 2 = [10; 20; 30] !! 0
  /\ swap [10; 20; 30] 2 0 !! 0 = [10; 20; 30] !! 2
  /\ (forall k : nat, k <> 2 -> k <> 0 ->
        swap [10; 20; 30] 2 0 !! k = [10; 20; 30] !! k)
  /\ swap (swap [10; 20; 30] 2 0) 2 0 = [10; 20; 30].
Proof.
  assert (H2 : 2 < length [10; 20; 30]) by (simpl; lia).
  assert (H0 : 0 < length [10; 20; 30]) by (simpl; lia).
  split; [exact H2|]. split; [exact H0|].
  exact (X2_swap_exchange [10; 20; 30] 2 0 H2 H0).
Defined.

Lemma X3_witness :
  rng_in_unit_interval Fixture.toy_rng
  /\ seededShuffle Fixture.toy_seedrandom Fixture.toy_rng
       (map (Nat.mul 2) [1; 2; 3; 4; 5]) "s"
     = map (Nat.mul 2)
         (seededShuffle Fixture.toy_seedrandom Fixture.toy_rng
            [1; 2; 3; 4; 5] "s").
Proof.
  split; [exact FixtureFacts.toy_rng_contract|].
  exact (proj1 (X3_seededShuffle_natural Fixture.toy_seedrandom
                  Fixture.toy_rng (Nat.mul 2) [1; 2; 3; 4; 5] "s"
                  FixtureFacts.toy_rng_contract)).
Defined.


Lemma X9_witness :
  rng_in_unit_interval Fixture.toy_rng
  /\ (Fixture.question 300 "Expert"
      ∈ buildDailySet Fixture.toy_seedrandom Fixture.toy_rng
          Fixture.small_pool "2024-05-01-1")
  /\ (Fixture.question 300 "Expert" ∈ Fixture.small_pool).
Proof.
  assert (Hin : Fixture.question 300 "Expert"
                ∈ buildDailySet Fixture.toy_seedrandom Fixture.toy_rng
                    Fixture.small_pool "2024-05-01-1").
  { apply (list_elem_of_lookup_2 _ 6). vm_compute. reflexivity. }
  split; [exact FixtureFacts.toy_rng_contract|]. split; [exact Hin|].
  exact (X9_buildDailySet_from_pool Fixture.toy_seedrandom Fixture.toy_rng
           FixtureFacts.toy_rng_contract Fixture.small_pool "2024-05-01-1"
           (Fixture.question 300 "Expert") Hin).
Defined.


Lemma X12_witness :
  rng_in_unit_interval Fixture.toy_rng
  /\ buildDailySet Fixture.toy_seedrandom Fixture.toy_rng
       Fixture.short_easy_pool "2024-05-01-1" !! 28
     = Some (Fixture.question 213 "Hard")
  /\ length (pullBlocks Fixture.toy_seedrandom Fixture.toy_rng
               Fixture.short_easy_pool "2024-05-01-1") <= 28
  /\ (Fixture.question 213 "Hard" ∈ Fixture.short_easy_pool)
  /\ (difficulty (Fixture.question 213 "Hard") = "Hard" ->
      21 < length (group_of "Hard" Fixture.short_easy_pool)).
Proof.
  assert (Hq : buildDailySet Fixture.toy_seedrandom Fixture.toy_rng
                 Fixture.short_easy_pool "2024-05-01-1" !! 28
               = Some (Fixture.question 213 "Hard"))
    by (vm_compute; reflexivity).
  assert (Hi : length (pullBlocks Fixture.toy_seedrandom Fixture.toy_rng
                         Fixture.short_easy_pool "2024-05-01-1") <= 28)
    by (vm_compute; lia).
  split; [exact FixtureFacts.toy_rng_contract|].
  split; [exact Hq|]. split; [exact Hi|].
  pose proof (X12_filler_from_surplus Fixture.toy_seedrandom Fixture.toy_rng
                FixtureFacts.toy_rng_contract Fixture.short_easy_pool
                "2024-05-01-1" 28 (Fixture.question 213 "Hard") Hq Hi)
    as (Hpool & _ & _ & _ & Hhard).
  split; [exact Hpool | exact Hhard].
Defined.

Lemma X13_witness :
  rng_in_unit_interval Fixture.toy_rng
  /\ (forall q, id (Fixture.edited q) = id q)
  /\ (forall q, difficulty (Fixture.edited q) = difficulty q)
  /\ buildDailySet Fixture.toy_seedrandom Fixture.toy_rng
       (map Fixture.edited Fixture.short_easy_pool) "2024-05-01-1"
     = map Fixture.edited
         (buildDailySet Fixture.toy_seedrandom Fixture.toy_rng
            Fixture.short_easy_pool "2024-05-01-1").
Proof.
  assert (Hid : forall q, id (Fixture.edited q) = id q)
    by (intros q; reflexivity).
  assert (Hd : forall q, difficulty (Fixture.edited q) = difficulty q)
    by (intros q; reflexivity).
  split; [exact FixtureFacts.toy_rng_contract|].
  split; [exact Hid|]. split; [exact Hd|].
  exact (X13_buildDailySet_content_blind Fixture.toy_seedrandom
           Fixture.toy_rng Fixture.edited Fixture.short_easy_pool
           "2024-05-01-1" FixtureFacts.toy_rng_contract Hid Hd).
Defined.

(** ** The plain object against the map of own properties *)

Lemma get_own_name (own : gmap string (list Question)) (name : string) :
  inherited name = false ->
  get own name
  = match own !! name with
    | Some group => GroupArray group
    | None => Undefined
    end.
Proof. intros Hname. unfold get. by rewrite Hname. Qed.

(** With an ordinary tag the callback does what the map model does. *)
Lemma group_step_own (acc : gmap string (list Question)) (q : Question) :
  inherited (difficulty q) = false ->
  group_step acc q
  = Returns
      (alter (fun group => group ++ [q]) (difficulty q)
         (match acc !! difficulty q with
          | None => <[difficulty q := []]> acc
          | Some _ => acc
          end)).
Proof.
  intros Hq. unfold group_step. rewrite (get_own_name acc) by done.
  destruct (acc !! difficulty q) as [group|] eqn:Hacc.
  - rewrite (get_own_name acc), Hacc by done. done.
  - rewrite get_own_name, lookup_insert_eq by done. done.
Qed.

(** With an inherited tag that is not an own key the callback throws. *)
Lemma group_step_inherited (acc : gmap string (list Question)) (q : Question) :
  inherited (difficulty q) = true ->
  acc !! difficulty q = None ->
  group_step acc q = Throws TypeError.
Proof.
  intros Hq Hacc. unfold group_step.
  assert (Hget : get acc (difficulty q) = InheritedValue)
    by (unfold get; by rewrite Hacc, Hq).
  rewrite Hget. cbv zeta. by rewrite Hget.
Qed.

Lemma reduce_groups_own (pool : list Question)
    (acc : gmap string (list Question)) :
  own_tags pool ->
  reduce_groups pool acc
  = Returns
      (fold_left
         (fun acc q =>
            let acc :=
              match acc !! difficulty q with
              | None => <[difficulty q := []]> acc
              | Some _ => acc
              end in
            alter (fun group => group ++ [q]) (difficulty q) acc)
         pool acc).
Proof.
  intros Hpool. revert acc.
  induction Hpool as [|q pool Hq Hpool IH]; intros acc; [done|].
  cbn [reduce_groups fold_left]. rewrite group_step_own by done. apply IH.
Qed.

Lemma reduce_groups_inherited (pool : list Question)
    (acc : gmap string (list Question)) :
  (forall name, inherited name = true -> acc !! name = None) ->
  ~ own_tags pool ->
  reduce_groups pool acc = Throws TypeError.
Proof.
  revert acc. induction pool as [|q pool IH]; intros acc Hacc Hbad.
  - exfalso. apply Hbad. constructor.
  - cbn [reduce_groups].
    destruct (inherited (difficulty q)) eqn:Hq.
    + by rewrite group_step_inherited by auto.
    + rewrite group_step_own by done. apply IH.
      * intros name Hname.
        assert (name <> difficulty q) by congruence.
        rewrite group_step_other by done. by apply Hacc.
      * intros Hrest. apply Hbad. by constructor.
Qed.

Lemma groupByDifficulty_obj_returns (pool : list Question) :
  own_tags pool ->
  groupByDifficulty_obj pool = Returns (groupByDifficulty pool).
Proof. apply reduce_groups_own. Qed.

Lemma groupByDifficulty_obj_throws (pool : list Question) :
  ~ own_tags pool -> groupByDifficulty_obj pool = Throws TypeError.
Proof. apply reduce_groups_inherited. intros name _. apply lookup_empty. Qed.

Section PlainObjectFacts.

Context {Gen : Type}.
Variable seedrandom : string -> Gen.
Variable rng_call : Gen -> Q * Gen.

Lemma pickFromGroup_obj_own (grouped : gmap string (list Question))
    (name : string) (n : nat) (seed : string) :
  inherited name = false ->
  pickFromGroup_obj seedrandom rng_call grouped name n seed
  = Returns (pickFromGroup seedrandom rng_call grouped name n seed).
Proof.
  intros Hname. unfold pickFromGroup_obj, pickFromGroup.
  rewrite get_own_name by done. by destruct (grouped !! name).
Qed.

(** Without an inherited tag in the pool the call returns what the map
    model computes. *)
Lemma buildDailySet_obj_returns (pool : list Question) (dateSeed : string) :
  own_tags pool ->
  buildDailySet_obj seedrandom rng_call pool dateSeed
  = Returns (buildDailySet seedrandom rng_call pool dateSeed).
Proof.
  intros Hpool. unfold buildDailySet_obj.
  rewrite groupByDifficulty_obj_returns by done. cbv zeta.
  by rewrite !pickFromGroup_obj_own by done.
Qed.

(** With an inherited tag in the pool the call throws. *)
Lemma buildDailySet_obj_throws (pool : list Question) (dateSeed : string) :
  ~ own_tags pool ->
  buildDailySet_obj seedrandom rng_call pool dateSeed = Throws TypeError.
Proof.
  intros Hpool. unfold buildDailySet_obj.
  by rewrite groupByDifficulty_obj_throws.
Qed.

End PlainObjectFacts.

(** ** Claims and properties on the plain object *)

Section PlainObjectClaims.

Context {Gen : Type}.
Variable seedrandom : string -> Gen.
Variable rng_call : Gen -> Q * Gen.
Hypothesis rng_contract : rng_in_unit_interval rng_call.

(** Full groups leave nothing to the filler. *)
Lemma full_groups_no_filler (pool : list Question) (daySeed : string) :
  4 <= length (group_of "Easy" pool) ->
  5 <= length (group_of "Medium" pool) ->
  21 <= length (group_of "Hard" pool) ->
  buildDailySet seedrandom rng_call pool daySeed
  = pullBlocks seedrandom rng_call pool daySeed.
Proof.
  intros H4 H5 H21.
  assert (Hlen : length (pullBlocks seedrandom rng_call pool daySeed) = 30).
  { rewrite pullBlocks_blocks, !length_app, !pick_length by done.
    revert H4 H5 H21.
    generalize (length (group_of "Easy" pool)).
    generalize (length (group_of "Medium" pool)).
    generalize (length (group_of "Hard" pool)).
    intros; lia. }
  rewrite buildDailySet_blocks_filler, Hlen. cbn. by rewrite app_nil_r.
Qed.

(** C8 (amended).  For a pool with distinct ids, fewer than 30 questions
    and no difficulty tag that is a property name inherited from
    [Object.prototype], and for every day seed, [buildDailySet] returns,
    without throwing, a list shorter than 30 that contains every question
    of the pool exactly once. *)
Theorem C8_small_pool_own_tags (pool : list Question) (daySeed : string) :
  own_tags pool ->
  NoDup (ids pool) ->
  length pool < 30 ->
  exists result : list Question,
    buildDailySet_obj seedrandom rng_call pool daySeed = Returns result
    /\ result ≡ₚ pool
    /\ NoDup result
    /\ length result < 30.
Proof.
  intros Htags Hnd Hsmall.
  exists (buildDailySet seedrandom rng_call pool daySeed).
  split; [by apply buildDailySet_obj_returns|].
  by apply small_pool_rearranged.
Qed.

(** C9 (amended).  For a pool none of whose difficulty tags is a property
    name inherited from [Object.prototype], and for every day seed,
    [buildDailySet] returns the Easy, Medium and Hard blocks followed by
    the filler; every question of the blocks has difficulty Easy, Medium
    or Hard, so a question with any other tag can only stand in the
    filler part; and a tag that is not an inherited name and has no
    question in the pool gives an empty block, not a failure. *)
Theorem C9_quota_blocks_own_tags (pool : list Question) (daySeed : string) :
  own_tags pool ->
  exists (grouped : gmap string (list Question))
         (easy medium hard filler : list Question),
    groupByDifficulty_obj pool = Returns grouped
    /\ pickFromGroup_obj seedrandom rng_call grouped "Easy" 4 daySeed
       = Returns easy
    /\ pickFromGroup_obj seedrandom rng_call grouped "Medium" 5 daySeed
       = Returns medium
    /\ pickFromGroup_obj seedrandom rng_call grouped "Hard" 21 daySeed
       = Returns hard
    /\ buildDailySet_obj seedrandom rng_call pool daySeed
       = Returns ((easy ++ medium ++ hard) ++ filler)
    /\ (forall q : Question, q ∈ easy ++ medium ++ hard ->
          difficulty q = "Easy" \/ difficulty q = "Medium"
          \/ difficulty q = "Hard")
    /\ (forall (i : nat) (q : Question),
          ((easy ++ medium ++ hard) ++ filler) !! i = Some q ->
          difficulty q <> "Easy" -> difficulty q <> "Medium" ->
          difficulty q <> "Hard" -> length (easy ++ medium ++ hard) <= i)
    /\ (forall (tag : string) (n : nat),
          inherited tag = false ->
          group_of tag pool = [] ->
          pickFromGroup_obj seedrandom rng_call grouped tag n daySeed
          = Returns []).
Proof.
  intros Htags.
  destruct (quota_blocks_tags seedrandom rng_call rng_contract pool daySeed)
    as (Hblocks & [filler Hfill] & Hother & Habsent).
  rewrite pullBlocks_blocks in Hblocks, Hfill, Hother.
  eexists (groupByDifficulty pool), _, _, _, filler.
  split; [by apply groupByDifficulty_obj_returns|].
  do 3 (split; [by apply pickFromGroup_obj_own|]).
  split; [by rewrite buildDailySet_obj_returns, Hfill|].
  split; [exact Hblocks|]. split.
  - intros i q. rewrite <- Hfill. apply Hother.
  - intros tag n Htag Hnone.
    by rewrite pickFromGroup_obj_own, Habsent.
Qed.

(** X6.  What reading [grouped[name]] gives on the object
    [groupByDifficulty] returns for a pool without inherited tags: the
    pool questions with that tag, in pool order, if there are any, and
    never an empty array; otherwise the inherited value for a property
    name of [Object.prototype] and undefined for every other name. *)
Theorem X6_groupByDifficulty_reads (pool : list Question) :
  own_tags pool ->
  exists grouped : gmap string (list Question),
    groupByDifficulty_obj pool = Returns grouped
    /\ forall name : string,
         get grouped name
         = match group_of name pool with
           | q :: group => GroupArray (q :: group)
           | [] => if inherited name then InheritedValue else Undefined
           end.
Proof.
  intros Htags. exists (groupByDifficulty pool).
  split; [by apply groupByDifficulty_obj_returns|].
  intros name. unfold get. rewrite groupByDifficulty_own_lookup.
  by destruct (group_of name pool).
Qed.

(** X10.  For a pool with distinct ids and without inherited tags the
    daily set has 30 questions, or the whole pool if the pool has fewer:
    [buildDailySet] returns a list of length [min 30 (length pool)].  In
    particular such a pool of at least 30 questions gives 30, also when a
    group is short. *)
Theorem X10_buildDailySet_length (pool : list Question) (daySeed : string) :
  own_tags pool ->
  NoDup (ids pool) ->
  exists result : list Question,
    buildDailySet_obj seedrandom rng_call pool daySeed = Returns result
    /\ length result = min 30 (length pool)
    /\ (30 <= length pool -> length result = 30).
Proof.
  intros Htags Hnd.
  exists (buildDailySet seedrandom rng_call pool daySeed).
  split; [by apply buildDailySet_obj_returns|].
  pose proof (buildDailySet_length_min seedrandom rng_call rng_contract
                pool daySeed Hnd) as Hlen.
  split; [done|]. intros Hbig. rewrite Hlen. by apply Nat.min_l.
Qed.

(** X17.  For two pools without inherited tags that have the same Easy,
    Medium and Hard groups, and whose groups fill the counts (4, 5 and
    21), [buildDailySet] returns the same daily set, made of Easy, Medium
    and Hard questions only: questions with any other tag, wherever they
    stand in the pool, change nothing and are not served. *)
Theorem X17_buildDailySet_three_groups (pool1 pool2 : list Question)
    (daySeed : string) :
  own_tags pool1 -> own_tags pool2 ->
  group_of "Easy" pool1 = group_of "Easy" pool2 ->
  group_of "Medium" pool1 = group_of "Medium" pool2 ->
  group_of "Hard" pool1 = group_of "Hard" pool2 ->
  4 <= length (group_of "Easy" pool1) ->
  5 <= length (group_of "Medium" pool1) ->
  21 <= length (group_of "Hard" pool1) ->
  exists result : list Question,
    buildDailySet_obj seedrandom rng_call pool1 daySeed = Returns result
    /\ buildDailySet_obj seedrandom rng_call pool2 daySeed = Returns result
    /\ forall q : Question, q ∈ result ->
         difficulty q = "Easy" \/ difficulty q = "Medium"
         \/ difficulty q = "Hard".
Proof.
  intros Ht1 Ht2 HE HM HH H4 H5 H21.
  destruct (three_groups_decide seedrandom rng_call rng_contract pool1 pool2
              daySeed HE HM HH) as [_ Hsame].
  specialize (Hsame H4 H5 H21).
  exists (buildDailySet seedrandom rng_call pool1 daySeed).
  split; [by apply buildDailySet_obj_returns|].
  split; [by rewrite Hsame; apply buildDailySet_obj_returns|].
  rewrite (full_groups_no_filler pool1 daySeed H4 H5 H21).
  by destruct (quota_blocks_tags seedrandom rng_call rng_contract pool1
                 daySeed) as [Htag _].
Qed.

(** X18.  When [buildDailySet] throws.  It throws a [TypeError], in
    [groupByDifficulty], exactly when some question of the pool carries a
    tag that is a property name inherited from [Object.prototype]; for
    every other pool it returns. *)
Theorem X18_buildDailySet_throws (pool : list Question) (daySeed : string) :
  (own_tags pool
   <-> exists result : list Question,
         buildDailySet_obj seedrandom rng_call pool daySeed = Returns result)
  /\ (~ own_tags pool
      <-> groupByDifficulty_obj pool = Throws TypeError)
  /\ (~ own_tags pool
      <-> buildDailySet_obj seedrandom rng_call pool daySeed
          = Throws TypeError).
Proof.
  destruct (decide (own_tags pool)) as [Htags|Hbad].
  - pose proof (buildDailySet_obj_returns seedrandom rng_call pool daySeed
                  Htags) as Hret.
    pose proof (groupByDifficulty_obj_returns pool Htags) as Hgroup.
    split; [split; [by eexists|done]|].
    split; (split; [done|]); [rewrite Hgroup|rewrite Hret]; discriminate.
  - pose proof (buildDailySet_obj_throws seedrandom rng_call pool daySeed
                  Hbad) as Hthrow.
    pose proof (groupByDifficulty_obj_throws pool Hbad) as Hgroup.
    split; [split; [done|]|by split].
    intros [result Hret]. rewrite Hthrow in Hret. discriminate.
Qed.

End PlainObjectClaims.

(** ** Properties of the quiz endpoint *)

Section HandlerFacts.

Context {Gen : Type}.
Variable seedrandom : string -> Gen.
Variable rng_call : Gen -> Q * Gen.
Hypothesis rng_contract : rng_in_unit_interval rng_call.

(** Without inherited tags the handler answers with the daily set,
    rearranged by the user seed. *)
Lemma quizHandler_json (questionsPool : list Question)
    (query_userId : option string) (today : string) (getDate : nat) :
  own_tags questionsPool ->
  quizHandler seedrandom rng_call questionsPool query_userId today getDate
  = Json (seededShuffle seedrandom rng_call
            (buildDailySet seedrandom rng_call questionsPool
               (today +:+ "-" +:+ decimal (getDate mod 3)))
            (userIdOrAnonymous query_userId +:+ "-" +:+ today)).
Proof.
  intros Htags. unfold quizHandler. cbv zeta.
  rewrite buildDailySet_obj_returns by done. by rewrite map_toPayload.
Qed.

(** With an inherited tag the [catch] block answers. *)
Lemma quizHandler_500 (questionsPool : list Question)
    (query_userId : option string) (today : string) (getDate : nat) :
  ~ own_tags questionsPool ->
  quizHandler seedrandom rng_call questionsPool query_userId today getDate
  = Status500 "Failed to build quiz. Try again later.".
Proof.
  intros Hbad. unfold quizHandler. cbv zeta.
  by rewrite buildDailySet_obj_throws.
Qed.

(** X14.  Two requests for which the clock gives the same [today] text and
    the same [getDate()] number are served the same questions, whoever
    asks; only the order depends on the user.  For a pool without
    inherited tags both get a payload that is a rearrangement of the
    daily set built from the seed [today-(getDate mod 3)], hence of each
    other; for a pool with such a tag both get the status 500 answer. *)
Theorem X14_quizHandler_same_questions (questionsPool : list Question)
    (user1 user2 : option string) (today : string) (getDate : nat) :
  (own_tags questionsPool ->
   exists dailySet payload1 payload2 : list Question,
     buildDailySet_obj seedrandom rng_call questionsPool
       (today +:+ "-" +:+ decimal (getDate mod 3)) = Returns dailySet
     /\ quizHandler seedrandom rng_call questionsPool user1 today getDate
        = Json payload1
     /\ quizHandler seedrandom rng_call questionsPool user2 today getDate
        = Json payload2
     /\ payload1 ≡ₚ dailySet
     /\ payload1 ≡ₚ payload2)
  /\ (~ own_tags questionsPool ->
      quizHandler seedrandom rng_call questionsPool user1 today getDate
      = Status500 "Failed to build quiz. Try again later."
      /\ quizHandler seedrandom rng_call questionsPool user2 today getDate
         = Status500 "Failed to build quiz. Try again later.").
Proof.
  split.
  - intros Htags. eexists _, _, _.
    split; [by apply buildDailySet_obj_returns|].
    split; [by apply quizHandler_json|].
    split; [by apply quizHandler_json|].
    split; [by apply seededShuffle_perm|].
    by rewrite !(seededShuffle_perm seedrandom rng_call rng_contract).
  - intros Hbad. split; by apply quizHandler_500.
Qed.

(** X15.  What a request gets from a pool with distinct ids.  Without
    inherited tags in the pool: a payload of 30 questions (the whole pool
    if it has fewer), with pairwise distinct ids, each of them a question
    of the pool.  With such a tag: status 500 with the message of the
    [catch] block. *)
Theorem X15_quizHandler_response (questionsPool : list Question)
    (query_userId : option string) (today : string) (getDate : nat) :
  NoDup (ids questionsPool) ->
  (own_tags questionsPool ->
   exists payload : list Question,
     quizHandler seedrandom rng_call questionsPool query_userId today getDate
     = Json payload
     /\ length payload = min 30 (length questionsPool)
     /\ NoDup (ids payload)
     /\ forall q : Question, q ∈ payload -> q ∈ questionsPool)
  /\ (~ own_tags questionsPool ->
      quizHandler seedrandom rng_call questionsPool query_userId today getDate
      = Status500 "Failed to build quiz. Try again later.").
Proof.
  intros Hnd. split; [|by apply quizHandler_500].
  intros Htags. eexists. split; [by apply quizHandler_json|].
  set (dailySet := buildDailySet seedrandom rng_call questionsPool
                     (today +:+ "-" +:+ decimal (getDate mod 3))).
  set (payload := seededShuffle seedrandom rng_call dailySet _).
  assert (Hperm : payload ≡ₚ dailySet) by by apply seededShuffle_perm.
  assert (Hsub : payload ⊆+ questionsPool).
  { rewrite Hperm. by apply buildDailySet_submseteq. }
  split; [|split].
  - rewrite Hperm.
    by apply (buildDailySet_length_min seedrandom rng_call rng_contract).
  - by eapply NoDup_ids_submseteq.
  - intros q Hq. by eapply elem_of_submseteq.
Qed.

End HandlerFacts.

(** ** The plain object at concrete inputs *)

Module PlainObjectExamples.
Import Fixture.

Lemma ample_pool_tags : own_tags ample_pool.
Proof. apply (bool_decide_unpack _). vm_compute. exact I. Defined.

Lemma regrouped_pool_tags : own_tags regrouped_pool.
Proof. apply (bool_decide_unpack _). vm_compute. exact I. Defined.

Lemma short_easy_pool_tags : own_tags short_easy_pool.
Proof. apply (bool_decide_unpack _). vm_compute. exact I. Defined.

Lemma small_pool_tags : own_tags small_pool.
Proof. apply (bool_decide_unpack _). vm_compute. exact I. Defined.

Lemma proto_pool_ids : NoDup (ids proto_pool).
Proof. apply (bool_decide_unpack _). vm_compute. exact I. Defined.

Lemma toString_pool_ids : NoDup (ids toString_pool).
Proof. apply (bool_decide_unpack _). vm_compute. exact I. Defined.

Lemma toString_pool_tags : ~ own_tags toString_pool.
Proof. apply (bool_decide_unpack _). vm_compute. exact I. Defined.

(** The handler on a pool with a question tagged ["toString"]. *)
Example toString_pool_response :
  quizHandler toy_seedrandom toy_rng toString_pool (Some "u1") "2024-05-01" 1
  = Status500 "Failed to build quiz. Try again later.".
Proof. vm_compute. reflexivity. Qed.

(** On a pool of ordinary tags, the inherited names still answer. *)
Example small_pool_reads :
  (fun grouped => (get grouped "Easy", get grouped "Expert",
                   get grouped "Harder", get grouped "constructor"))
    <$> match groupByDifficulty_obj small_pool with
        | Returns grouped => Some grouped
        | Throws _ => None
        end
  = Some (GroupArray (questions 0 2 "Easy"),
          GroupArray (questions 300 1 "Expert"),
          Undefined, InheritedValue).
Proof. vm_compute. reflexivity. Qed.

End PlainObjectExamples.

(** C8 as stated fails: this pool has distinct ids and two questions, one
    of them tagged ["__proto__"], and the call throws at
    [acc[q.difficulty].push(q)] instead of returning a list. *)
Lemma C8_counterexample :
  NoDup (ids Fixture.proto_pool)
  /\ length Fixture.proto_pool < 30
  /\ buildDailySet_obj Fixture.toy_seedrandom Fixture.toy_rng
       Fixture.proto_pool "2024-05-01-1"
     = Throws TypeError.
Proof.
  split; [exact PlainObjectExamples.proto_pool_ids|].
  split; [vm_compute; lia|]. vm_compute. reflexivity.
Qed.

(** C9 as stated fails: the tag Easy is absent from this pool, which has a
    question tagged ["constructor"], and the call throws instead of
    returning a result with an empty Easy block. *)
Lemma C9_counterexample :
  group_of "Easy" Fixture.constructor_pool = []
  /\ groupByDifficulty_obj Fixture.constructor_pool = Throws TypeError
  /\ buildDailySet_obj Fixture.toy_seedrandom Fixture.toy_rng
       Fixture.constructor_pool "2024-05-01-1"
     = Throws TypeError.
Proof. vm_compute. repeat split; reflexivity. Qed.

(** ** The amended claims and the further properties at concrete inputs *)

Lemma C8_witness :
  rng_in_unit_interval Fixture.toy_rng
  /\ own_tags Fixture.small_pool
  /\ NoDup (ids Fixture.small_pool)
  /\ length Fixture.small_pool < 30
  /\ exists result : list Question,
       buildDailySet_obj Fixture.toy_seedrandom Fixture.toy_rng
         Fixture.small_pool "2024-05-01-1" = Returns result
       /\ result ≡ₚ Fixture.small_pool
       /\ NoDup result
       /\ length result < 30.
Proof.
  assert (Hsmall : length Fixture.small_pool < 30) by (vm_compute; lia).
  split; [exact FixtureFacts.toy_rng_contract|].
  split; [exact PlainObjectExamples.small_pool_tags|].
  split; [exact FixtureFacts.small_pool_ids|]. split; [exact Hsmall|].
  exact (C8_small_pool_own_tags Fixture.toy_seedrandom Fixture.toy_rng
           FixtureFacts.toy_rng_contract Fixture.small_pool "2024-05-01-1"
           PlainObjectExamples.small_pool_tags FixtureFacts.small_pool_ids
           Hsmall).
Defined.

Lemma C9_witness :
  rng_in_unit_interval Fixture.toy_rng
  /\ own_tags Fixture.small_pool
  /\ exists (grouped : gmap string (list Question))
            (easy medium hard filler : list Question),
       groupByDifficulty_obj Fixture.small_pool = Returns grouped
       /\ pickFromGroup_obj Fixture.toy_seedrandom Fixture.toy_rng grouped
            "Easy" 4 "2024-05-01-1" = Returns easy
       /\ pickFromGroup_obj Fixture.toy_seedrandom Fixture.toy_rng grouped
            "Medium" 5 "2024-05-01-1" = Returns medium
       /\ pickFromGroup_obj Fixture.toy_seedrandom Fixture.toy_rng grouped
            "Hard" 21 "2024-05-01-1" = Returns hard
       /\ buildDailySet_obj Fixture.toy_seedrandom Fixture.toy_rng
            Fixture.small_pool "2024-05-01-1"
          = Returns ((easy ++ medium ++ hard) ++ filler)
       /\ (forall q : Question, q ∈ easy ++ medium ++ hard ->
             difficulty q = "Easy" \/ difficulty q = "Medium"
             \/ difficulty q = "Hard")
       /\ (forall (i : nat) (q : Question),
             ((easy ++ medium ++ hard) ++ filler) !! i = Some q ->
             difficulty q <> "Easy" -> difficulty q <> "Medium" ->
             difficulty q <> "Hard" -> length (easy ++ medium ++ hard) <= i)
       /\ (forall (tag : string) (n : nat),
             inherited tag = false ->
             group_of tag Fixture.small_pool = [] ->
             pickFromGroup_obj Fixture.toy_seedrandom Fixture.toy_rng grouped
               tag n "2024-05-01-1"
             = Returns []).
Proof.
  split; [exact FixtureFacts.toy_rng_contract|].
  split; [exact PlainObjectExamples.small_pool_tags|].
  exact (C9_quota_blocks_own_tags Fixture.toy_seedrandom Fixture.toy_rng
           FixtureFacts.toy_rng_contract Fixture.small_pool "2024-05-01-1"
           PlainObjectExamples.small_pool_tags).
Defined.

Lemma X4_witness :
  rng_in_unit_interval Fixture.toy_rng
  /\ 2 < length [1; 2; 3; 4; 5] /\ 2 < 4
  /\ fst (shuffle_loop Fixture.toy_rng 2 (Fixture.toy_seedrandom "s")
            [1; 2; 3; 4; 5]) !! 4
     = [1; 2; 3; 4; 5] !! 4.
Proof.
  assert (Hi : 2 < length [1; 2; 3; 4; 5]) by (simpl; lia).
  assert (Hk : 2 < 4) by lia.
  split; [exact FixtureFacts.toy_rng_contract|].
  split; [exact Hi|]. split; [exact Hk|].
  exact (X4_shuffle_loop_settled Fixture.toy_rng FixtureFacts.toy_rng_contract
           2 (Fixture.toy_seedrandom "s") [1; 2; 3; 4; 5] 4 Hi Hk).
Defined.

Lemma X6_witness :
  own_tags Fixture.small_pool
  /\ exists grouped : gmap string (list Question),
       groupByDifficulty_obj Fixture.small_pool = Returns grouped
       /\ forall name : string,
            get grouped name
            = match group_of name Fixture.small_pool with
              | q :: group => GroupArray (q :: group)
              | [] => if inherited name then InheritedValue else Undefined
              end.
Proof.
  split; [exact PlainObjectExamples.small_pool_tags|].
  exact (X6_groupByDifficulty_reads Fixture.small_pool
           PlainObjectExamples.small_pool_tags).
Defined.

Lemma X10_witness :
  rng_in_unit_interval Fixture.toy_rng
  /\ own_tags Fixture.short_easy_pool
  /\ NoDup (ids Fixture.short_easy_pool)
  /\ exists result : list Question,
       buildDailySet_obj Fixture.toy_seedrandom Fixture.toy_rng
         Fixture.short_easy_pool "2024-05-01-1" = Returns result
       /\ length result = min 30 (length Fixture.short_easy_pool)
       /\ (30 <= length Fixture.short_easy_pool -> length result = 30).
Proof.
  split; [exact FixtureFacts.toy_rng_contract|].
  split; [exact PlainObjectExamples.short_easy_pool_tags|].
  split; [exact FixtureFacts.short_easy_pool_ids|].
  exact (X10_buildDailySet_length Fixture.toy_seedrandom Fixture.toy_rng
           FixtureFacts.toy_rng_contract Fixture.short_easy_pool
           "2024-05-01-1" PlainObjectExamples.short_easy_pool_tags
           FixtureFacts.short_easy_pool_ids).
Defined.

Lemma X14_witness :
  rng_in_unit_interval Fixture.toy_rng
  /\ own_tags Fixture.small_pool
  /\ exists dailySet payload1 payload2 : list Question,
       buildDailySet_obj Fixture.toy_seedrandom Fixture.toy_rng
         Fixture.small_pool ("2024-05-01" +:+ "-" +:+ decimal (1 mod 3))
       = Returns dailySet
       /\ quizHandler Fixture.toy_seedrandom Fixture.toy_rng
            Fixture.small_pool (Some "u1") "2024-05-01" 1 = Json payload1
       /\ quizHandler Fixture.toy_seedrandom Fixture.toy_rng
            Fixture.small_pool None "2024-05-01" 1 = Json payload2
       /\ payload1 ≡ₚ dailySet
       /\ payload1 ≡ₚ payload2.
Proof.
  split; [exact FixtureFacts.toy_rng_contract|].
  split; [exact PlainObjectExamples.small_pool_tags|].
  exact (proj1 (X14_quizHandler_same_questions Fixture.toy_seedrandom
                  Fixture.toy_rng FixtureFacts.toy_rng_contract
                  Fixture.small_pool (Some "u1") None "2024-05-01" 1)
           PlainObjectExamples.small_pool_tags).
Defined.

Lemma X15_witness :
  rng_in_unit_interval Fixture.toy_rng
  /\ NoDup (ids Fixture.toString_pool)
  /\ ~ own_tags Fixture.toString_pool
  /\ quizHandler Fixture.toy_seedrandom Fixture.toy_rng Fixture.toString_pool
       (Some "u1") "2024-05-01" 1
     = Status500 "Failed to build quiz. Try again later.".
Proof.
  split; [exact FixtureFacts.toy_rng_contract|].
  split; [exact PlainObjectExamples.toString_pool_ids|].
  split; [exact PlainObjectExamples.toString_pool_tags|].
  exact (proj2 (X15_quizHandler_response Fixture.toy_seedrandom
                  Fixture.toy_rng FixtureFacts.toy_rng_contract
                  Fixture.toString_pool (Some "u1") "2024-05-01" 1
                  PlainObjectExamples.toString_pool_ids)
           PlainObjectExamples.toString_pool_tags).
Defined.

Lemma X17_witness :
  rng_in_unit_interval Fixture.toy_rng
  /\ own_tags Fixture.ample_pool /\ own_tags Fixture.regrouped_pool
  /\ group_of "Easy" Fixture.ample_pool = group_of "Easy" Fixture.regrouped_pool
  /\ group_of "Medium" Fixture.ample_pool
     = group_of "Medium" Fixture.regrouped_pool
  /\ group_of "Hard" Fixture.ample_pool = group_of "Hard" Fixture.regrouped_pool
  /\ 4 <= length (group_of "Easy" Fixture.ample_pool)
  /\ 5 <= length (group_of "Medium" Fixture.ample_pool)
  /\ 21 <= length (group_of "Hard" Fixture.ample_pool)
  /\ exists result : list Question,
       buildDailySet_obj Fixture.toy_seedrandom Fixture.toy_rng
         Fixture.ample_pool "2024-05-01-1" = Returns result
       /\ buildDailySet_obj Fixture.toy_seedrandom Fixture.toy_rng
            Fixture.regrouped_pool "2024-05-01-1" = Returns result
       /\ forall q : Question, q ∈ result ->
            difficulty q = "Easy" \/ difficulty q = "Medium"
            \/ difficulty q = "Hard".
Proof.
  assert (HE : group_of "Easy" Fixture.ample_pool
               = group_of "Easy" Fixture.regrouped_pool)
    by (vm_compute; reflexivity).
  assert (HM : group_of "Medium" Fixture.ample_pool
               = group_of "Medium" Fixture.regrouped_pool)
    by (vm_compute; reflexivity).
  assert (HH : group_of "Hard" Fixture.ample_pool
               = group_of "Hard" Fixture.regrouped_pool)
    by (vm_compute; reflexivity).
  assert (H4 : 4 <= length (group_of "Easy" Fixture.ample_pool))
    by (vm_compute; lia).
  assert (H5 : 5 <= length (group_of "Medium" Fixture.ample_pool))
    by (vm_compute; lia).
  assert (H21 : 21 <= length (group_of "Hard" Fixture.ample_pool))
    by (vm_compute; lia).
  split; [exact FixtureFacts.toy_rng_contract|].
  split; [exact PlainObjectExamples.ample_pool_tags|].
  split; [exact PlainObjectExamples.regrouped_pool_tags|].
  split; [exact HE|]. split; [exact HM|]. split; [exact HH|].
  split; [exact H4|]. split; [exact H5|]. split; [exact H21|].
  exact (X17_buildDailySet_three_groups Fixture.toy_seedrandom Fixture.toy_rng
           FixtureFacts.toy_rng_contract Fixture.ample_pool
           Fixture.regrouped_pool "2024-05-01-1"
           PlainObjectExamples.ample_pool_tags
           PlainObjectExamples.regrouped_pool_tags HE HM HH H4 H5 H21).
Defined.
